(** * The VFS appointment bot: workflow of [VfsBot.run]

    A shallow embedding of [vfs_appointment_bot/vfs_bot/vfs_bot.py] and of
    the Netherlands adapter [vfs_bot_nl.py].  The browser, the configuration
    reader, the notification clients and standard input are collaborators
    of the program: their answers are collected in a [World], and every
    call the program makes to them is written to a trace.  Exceptions are
    explicit: a computation yields its trace and either a value or the
    exception it raised. *)

From Stdlib Require Import ZArith Ascii String.
From stdpp Require Import base strings list gmap.

Local Open Scope string_scope.
Local Open Scope list_scope.

(** ** Python values used by the program *)

(** An exception instance: its class and the text it carries.  Every
    exception modelled here derives from Python's [Exception], so an
    [except Exception] clause catches all of them. *)
Record exn := Exn { exn_class : string; exn_arg : string }.

Definition KeyError (key : string) : exn := Exn "KeyError" key.
Definition AttributeError (msg : string) : exn := Exn "AttributeError" msg.
Definition TypeError (msg : string) : exn := Exn "TypeError" msg.
Definition EOFError : exn := Exn "EOFError" "EOF when reading a line".
(** [class LoginError(Exception)] *)
Definition LoginError (msg : string) : exn := Exn "LoginError" msg.
(** What Playwright raises when a bounded wait expires. *)
Definition TimeoutError (msg : string) : exn := Exn "TimeoutError" msg.

Definition is_KeyError (e : exn) : bool := String.eqb (exn_class e) "KeyError".
Definition is_Exception (e : exn) : bool := true.

Inductive outcome (A : Type) : Type :=
| Ret (a : A)
| Raise (e : exn).
Arguments Ret {A} a.
Arguments Raise {A} e.

(** What [run] hands back: it ends either in a bare [return] (Python's
    [None]) or in [return appointment_found]. *)
Inductive retval := PyNone | PyBool (b : bool).

(** A [dict] with string keys and values, in insertion order: assigning to
    a key that is already there keeps its place. *)
Definition pydict := list (string * string).

Fixpoint dict_set (d : pydict) (k v : string) : pydict :=
  match d with
  | [] => [(k, v)]
  | (k', v') :: d' =>
      if String.eqb k' k then (k, v) :: d' else (k', v') :: dict_set d' k v
  end.

Definition dict_get (d : pydict) (k : string) : option string :=
  snd <$> List.find (fun kv => String.eqb (fst kv) k) d.

(** [d.values()] *)
Definition values (d : pydict) : list string := map snd d.

(** ** String helpers *)

(** [sep.join(parts)] *)
Definition join (sep : string) (parts : list string) : string :=
  String.concat sep parts.
Arguments join : simpl never.

(** [s.replace(a, b)] for one-character [a] and [b]. *)
Fixpoint replace (a b : ascii) (s : string) : string :=
  match s with
  | EmptyString => EmptyString
  | String c s' => String (if Ascii.eqb c a then b else c) (replace a b s')
  end.

(** [s.split(sep)] for a one-character separator: always at least one
    piece, and empty pieces are kept. *)
Fixpoint split (sep : ascii) (s : string) : list string :=
  match s with
  | EmptyString => [EmptyString]
  | String c s' =>
      if Ascii.eqb c sep then EmptyString :: split sep s'
      else match split sep s' with
           | [] => [String c EmptyString]
           | p :: ps => String c p :: ps
           end
  end.

Definition upper_char (c : ascii) : ascii :=
  let n := nat_of_ascii c in
  if (andb (Nat.leb 97 n) (Nat.leb n 122)) then ascii_of_nat (n - 32) else c.

(** [s.upper()] on ASCII text. *)
Fixpoint upper (s : string) : string :=
  match s with
  | EmptyString => EmptyString
  | String c s' => String (upper_char c) (upper s')
  end.

(** [needle in hay] *)
Definition contains (hay needle : string) : Prop :=
  exists pre post, hay = pre +:+ needle +:+ post.

(** The escape character that starts the colour codes of the log and
    error texts. *)
Definition ESC : string := String (ascii_of_nat 27) EmptyString.

(** ** Traces *)

Inductive level := DEBUG | INFO | WARNING | ERROR.

(** What the adapter does with the page, and what it logs on the way. *)
Inductive page_event :=
| PgWaitForSelector (selector : string) (timeout : option Z)
| PgWaitForTimeout (ms : Z)
| PgFill (selector : string) (text : option string)
| PgClick (role name : string)
| PgSelectOption (label : string) (value : string)
| PgInnerText
| PgLog (lvl : level) (msg : string).

(** The records handed to [logging], with the data of their f-strings. *)
Inductive logrec :=
| LogStarting (src dst : string)
| LogMissingConfig (e : exn)
| LogNewPage
| LogChallengeDetected
| LogTryingPreLogin
| LogTryingLogin
| LogLoggedIn
| LogChecking (params : pydict)
| LogFound (dates : string)
| LogNoAppointments
| LogCheckFailed (e : exn)
| LogNoChannels
| LogSendFailed (channel : string).

Definition log_level (r : logrec) : level :=
  match r with
  | LogMissingConfig _ | LogCheckFailed _ | LogSendFailed _ => ERROR
  | LogNoChannels => WARNING
  | _ => INFO
  end.

(** Every call [run] makes to the outside, in order.  Calls whose failure
    the program reacts to carry their outcome. *)
Inductive event :=
| EvLog (r : logrec)
| EvConfig (section key : string) (default : option string)
| EvPrompt (text : string)
| EvPlaywrightStart
| EvPlaywrightStop
| EvLaunch (browser_type : option string) (headless : bool) (args : list string)
| EvNewPage
| EvGoto (url : option string)
| EvWaitForSelector (selector : string) (timeout : Z) (o : outcome unit)
| EvWaitForTimeout (ms : Z)
| EvBrowserClose
| EvPage (e : page_event)
| EvPreLogin (o : outcome unit)
| EvLogin (email password : option string) (o : outcome unit)
| EvCheck (params : pydict) (o : outcome (option (list string)))
| EvNotify (params : pydict) (dates : list string)
| EvGetClient (channel : string)
| EvSend (channel message : string) (o : outcome unit).

(** ** Computations that write a trace and may raise *)

Definition W (E A : Type) : Type := list E * outcome A.

Definition ret {E A} (a : A) : W E A := ([], Ret a).
Definition raise {E A} (e : exn) : W E A := ([], Raise e).
Definition emit {E} (e : E) : W E unit := ([e], Ret tt).
(** The answer of a collaborator, as a computation. *)
Definition answer {E A} (o : outcome A) : W E A := ([], o).

Definition bind {E A B} (m : W E A) (k : A -> W E B) : W E B :=
  match m with
  | (t, Ret a) => let (t', o) := k a in (t ++ t', o)
  | (t, Raise e) => (t, Raise e)
  end.

(** [try: m  except <catches> as e: handler e] *)
Definition try_except {E A} (m : W E A) (catches : exn -> bool)
    (handler : exn -> W E A) : W E A :=
  match m with
  | (t, Ret a) => (t, Ret a)
  | (t, Raise e) =>
      if catches e then let (t', o) := handler e in (t ++ t', o)
      else (t, Raise e)
  end.

(** [with enter ... exit: body]: the exit step runs however the body ends. *)
Definition with_scope {E A} (enter exit : E) (body : W E A) : W E A :=
  let (t, o) := body in (enter :: t ++ [exit], o).

Declare Scope py_scope.
Delimit Scope py_scope with py.
Notation "x <- m ;; k" := (bind m (fun x => k))
  (at level 100, m at next level, k at level 200, right associativity)
  : py_scope.
Notation "m ;; k" := (bind m (fun _ => k))
  (at level 100, k at level 200, right associativity) : py_scope.
Local Open Scope py_scope.

Definition tr {E A} (m : W E A) : list E := fst m.
Definition res {E A} (m : W E A) : outcome A := snd m.

(** ** The collaborators *)

(** An element handle; reading its text may fail. *)
Record Element := { inner_text : outcome string }.

(** A Playwright page, by the answers it gives.  [wait_for_selector]
    yields the element, Python's [None], or raises when the wait expires.
    [wait_for_timeout] only sleeps and [Browser.close] only releases: they
    have no answer to model. *)
Record Page := {
  goto : option string -> outcome unit;
  wait_for_selector : string -> option Z -> outcome (option Element);
  fill : string -> option string -> outcome unit;
  click : string -> string -> outcome unit;
  select_option : string -> string -> outcome unit
}.

Record Browser := { new_page : outcome Page }.

Record NotificationClient := { send_notification : string -> outcome unit }.

(** Everything outside the program that one run talks to.
    [get_config_value section key default] and [get_notification_client]
    are the functions of [utils/config_reader.py] and of
    [notification/notification_client_factory.py]; [launch] stands for
    [getattr(p, browser_type).launch(headless=..., args=...)]; [stdin] holds
    the lines [input] will read. *)
Record World := {
  get_config_value : string -> string -> option string -> outcome (option string);
  stdin : list string;
  launch : option string -> bool -> list string -> outcome Browser;
  get_notification_client : string -> outcome NotificationClient
}.

(** The [appointment_params] attribute of the argument namespace: absent,
    [None], or a [dict] whose values may be [None]. *)
Inductive attr :=
| NoAttr
| AttrNone
| AttrDict (d : gmap string (option string)).

(** The [args] of [run]: [None] (its default) or an [argparse.Namespace]. *)
Inductive py_args :=
| ArgsNone
| Namespace (appointment_params : attr).

(** ** [class VfsBot(ABC)] *)

(** The attributes set by [__init__] and the three abstract methods, which
    a country's subclass fills in. *)
Record VfsBot := {
  source_country_code : string;
  destination_country_code : string;
  appointment_param_keys : list string;
  login : Page -> option string -> option string -> W page_event unit;
  pre_login_steps : Page -> W page_event unit;
  check_for_appontment : Page -> pydict -> W page_event (option (list string))
}.

(** A call of an adapter method: what it did with the page, then the call
    itself with its outcome. *)
Definition call {A} (m : W page_event A) (ev : outcome A -> event) : W event A :=
  (map EvPage (fst m) ++ [ev (snd m)], snd m).

Definition log (r : logrec) : W event unit := emit (EvLog r).

Definition config (w : World) (section key : string) (default : option string)
  : W event (option string) :=
  emit (EvConfig section key default) ;;
  answer (get_config_value w section key default).

(** *** [get_appointment_params] *)

(** [getattr(args, "appointment_params")] *)
Definition getattr_appointment_params (args : py_args)
  : outcome (option (gmap string (option string))) :=
  match args with
  | ArgsNone =>
      Raise (AttributeError "'NoneType' object has no attribute 'appointment_params'")
  | Namespace NoAttr =>
      Raise (AttributeError "'Namespace' object has no attribute 'appointment_params'")
  | Namespace AttrNone => Ret None
  | Namespace (AttrDict d) => Ret (Some d)
  end.

(** [input(prompt)]: the next line of standard input, [EOFError] at its end. *)
Definition input (prompt : string) (lines : list string)
  : W event string * list string :=
  match lines with
  | [] => (([EvPrompt prompt], Raise EOFError), [])
  | l :: rest => (([EvPrompt prompt], Ret l), rest)
  end.

(** The body of the loop for one key: the value stored under it. *)
Definition param_value (args : py_args) (key : string) (lines : list string)
  : W event string * list string :=
  let prompt := "Enter the " +:+ replace "_" " " key +:+ ": " in
  match getattr_appointment_params args with
  | Raise e => (raise e, lines)
  | Ret None => input prompt lines
  | Ret (Some d) =>
      match d !! key with
      | None => (raise (KeyError key), lines)
      | Some None => input prompt lines
      | Some (Some v) => (ret v, lines)
      end
  end.

Fixpoint collect_params (args : py_args) (keys : list string)
    (appointment_params : pydict) (lines : list string) : W event pydict :=
  match keys with
  | [] => ret appointment_params
  | key :: keys' =>
      let (m, lines') := param_value args key lines in
      v <- m ;;
      collect_params args keys' (dict_set appointment_params key v) lines'
  end.

Definition get_appointment_params (self : VfsBot) (args : py_args)
    (lines : list string) : W event pydict :=
  collect_params args (appointment_param_keys self) [] lines.

(** *** [notify_appointment] *)

Definition notification_message (appointment_params : pydict)
    (dates : list string) : string :=
  "Found appointment(s) for " +:+ join ", " (values appointment_params)
  +:+ " on " +:+ join ", " dates.

(** One turn of [for channel in channels.split(",")]. *)
Definition deliver (w : World) (message channel : string) : W event unit :=
  client <- (emit (EvGetClient channel) ;;
             answer (get_notification_client w channel)) ;;
  try_except
    (let o := send_notification client message in
     emit (EvSend channel message o) ;; answer o)
    is_Exception
    (fun _ => log (LogSendFailed channel)).

Fixpoint fan_out (w : World) (message : string) (channels : list string)
  : W event unit :=
  match channels with
  | [] => ret tt
  | channel :: rest => deliver w message channel ;; fan_out w message rest
  end.

Definition notify_appointment (w : World) (appointment_params : pydict)
    (dates : list string) : W event unit :=
  emit (EvNotify appointment_params dates) ;;
  let message := notification_message appointment_params dates in
  channels <- config w "notification" "channels" None ;;
  match channels with
  | None => raise (TypeError "object of type 'NoneType' has no len()")
  | Some channels =>
      if Nat.eqb (String.length channels) 0 then log LogNoChannels
      else fan_out w message (split "," channels)
  end.

(** *** [run] *)

Definition login_failed_message : string :=
  ESC +:+ "[1;31mLogin failed. "
  +:+ "Please verify your username and password by logging in to the browser and try again."
  +:+ ESC +:+ "[0m".

(** [if dates:] holds for a list with at least one element; [None] and the
    empty list are both false. *)
Definition truthy (dates : option (list string)) : option (list string) :=
  match dates with
  | Some (d :: ds) => Some (d :: ds)
  | _ => None
  end.

(** The [try] block that reads the browser settings and the URL. *)
Definition read_configuration (w : World) (self : VfsBot)
  : W event (option (option string * option string * option string)) :=
  try_except
    (browser_type <- config w "browser" "type" (Some "firefox") ;;
     headless_mode <- config w "browser" "headless" (Some "True") ;;
     let url_key :=
       source_country_code self +:+ "-" +:+ destination_country_code self in
     vfs_url <- config w "vfs-url" url_key None ;;
     ret (Some (browser_type, headless_mode, vfs_url)))
    is_KeyError
    (fun e => log (LogMissingConfig e) ;; ret None).

(** The body of [with sync_playwright() as p:]. *)
Definition session (w : World) (self : VfsBot)
    (browser_type vfs_url email_id password : option string)
    (appointment_params : pydict) : W event retval :=
  browser <- (emit (EvLaunch browser_type false ["--start-maximized"]) ;;
              answer (launch w browser_type false ["--start-maximized"])) ;;
  page <- (emit EvNewPage ;; answer (new_page browser)) ;;
  log LogNewPage ;;
  emit (EvGoto vfs_url) ;; answer (goto page vfs_url) ;;
  (let o := match wait_for_selector page "div[appcloudflarerecaptcha]" (Some 300000%Z) with
            | Ret _ => Ret tt
            | Raise e => Raise e
            end in
   emit (EvWaitForSelector "div[appcloudflarerecaptcha]" 300000 o) ;; answer o) ;;
  log LogChallengeDetected ;;
  emit (EvWaitForTimeout 5000) ;;
  log LogTryingPreLogin ;;
  call (pre_login_steps self page) EvPreLogin ;;
  emit (EvWaitForTimeout 5000) ;;
  log LogTryingLogin ;;
  try_except
    (call (login self page email_id password) (EvLogin email_id password) ;;
     log LogLoggedIn)
    is_Exception
    (fun _ => emit EvBrowserClose ;; raise (LoginError login_failed_message)) ;;
  log (LogChecking appointment_params) ;;
  appointment_found <-
    try_except
      (dates <- call (check_for_appontment self page appointment_params)
                     (EvCheck appointment_params) ;;
       match truthy dates with
       | Some dates =>
           log (LogFound (join ", " dates)) ;;
           notify_appointment w appointment_params dates ;;
           ret true
       | None => log LogNoAppointments ;; ret false
       end)
      is_Exception
      (fun e => log (LogCheckFailed e) ;; ret false) ;;
  emit EvBrowserClose ;;
  ret (PyBool appointment_found).

Definition run (w : World) (self : VfsBot) (args : py_args) : W event retval :=
  log (LogStarting (upper (source_country_code self))
                   (upper (destination_country_code self))) ;;
  settings <- read_configuration w self ;;
  match settings with
  | None => ret PyNone
  | Some (browser_type, headless_mode, vfs_url) =>
      email_id <- config w "vfs-credential" "email" None ;;
      password <- config w "vfs-credential" "password" None ;;
      appointment_params <- get_appointment_params self args (stdin w) ;;
      with_scope EvPlaywrightStart EvPlaywrightStop
        (session w self browser_type vfs_url email_id password appointment_params)
  end.

(** ** [class VfsBotNl(VfsBot)] *)

Module Nl.

(** A page operation: the call is written down, the page answers. *)
Definition op {A} (e : page_event) (o : outcome A) : W page_event A := ([e], o).

Definition say (lvl : level) (msg : string) : W page_event unit :=
  emit (PgLog lvl msg).

(** [str(e)]: a [KeyError] shows its key quoted. *)
Definition str (e : exn) : string :=
  if is_KeyError e then "'" +:+ exn_arg e +:+ "'" else exn_arg e.

Definition login (page : Page) (email_id password : option string)
  : W page_event unit :=
  try_except
    (op (PgWaitForSelector "#email" (Some 30000%Z))
        (wait_for_selector page "#email" (Some 30000%Z)) ;;
     say INFO "Email input found" ;;
     op (PgWaitForSelector "#password" (Some 30000%Z))
        (wait_for_selector page "#password" (Some 30000%Z)) ;;
     say INFO "Password input found")
    is_Exception
    (fun _ =>
       say ERROR "Login form elements not found after waiting" ;;
       raise (Exn "Exception"
         "Login form elements not found. The page might be stuck in a loading state.")) ;;
  emit (PgWaitForTimeout 1000) ;;
  op (PgFill "#email" email_id) (fill page "#email" email_id) ;;
  emit (PgWaitForTimeout 500) ;;
  op (PgFill "#password" password) (fill page "#password" password) ;;
  emit (PgWaitForTimeout 1000) ;;
  op (PgClick "button" "Sign In") (click page "button" "Sign In") ;;
  try_except
    (op (PgWaitForSelector "role=button >> text=Start New Booking" (Some 30000%Z))
        (wait_for_selector page "role=button >> text=Start New Booking" (Some 30000%Z)) ;;
     ret tt)
    is_Exception
    (fun _ =>
       say ERROR "Failed to find 'Start New Booking' button after login" ;;
       raise (Exn "Exception"
         "Login might have failed or the page is stuck in a loading state.")).

(** [get_by_role] hands back a locator, never [None]: the click is
    always tried. *)
Definition pre_login_steps (page : Page) : W page_event unit :=
  op (PgClick "button" "Accept Only Necessary")
     (click page "button" "Accept Only Necessary") ;;
  say DEBUG "Rejected all cookie policies".

(** [appointment_params[key]] *)
Definition item (d : pydict) (key : string) : W page_event string :=
  match dict_get d key with
  | Some v => ret v
  | None => raise (KeyError key)
  end.

Definition choose (page : Page) (label : string) (d : pydict) (key : string)
  : W page_event unit :=
  v <- item d key ;;
  op (PgSelectOption label v) (select_option page label v).

Section WithDateUtils.

(** [extract_date_from_string] of [utils/date_utils.py], a function of
    the text it is given. *)
Variable extract_date_from_string : string -> outcome (option (list string)).

Definition check_for_appontment (page : Page) (appointment_params : pydict)
  : W page_event (option (list string)) :=
  try_except
    (op (PgClick "button" "Start New Booking")
        (click page "button" "Start New Booking") ;;
     choose page "Visa Application Centre" appointment_params "visa_center" ;;
     choose page "Visa Category" appointment_params "visa_category" ;;
     choose page "Visa Sub Category" appointment_params "visa_sub_category" ;;
     op (PgClick "button" "Continue") (click page "button" "Continue") ;;
     dates_element <- op (PgWaitForSelector ".date-available" None)
                         (wait_for_selector page ".date-available" None) ;;
     match dates_element with
     | Some el =>
         dates_text <- op PgInnerText (inner_text el) ;;
         answer (extract_date_from_string dates_text)
     | None => ret None
     end)
    is_Exception
    (fun e =>
       say ERROR ("Error checking for appointments: " +:+ str e) ;;
       ret None).

(** [VfsBotNl(source_country_code)] *)
Definition VfsBotNl (source : string) : VfsBot :=
  Build_VfsBot source "NL"
    ["visa_center"; "visa_category"; "visa_sub_category"]
    login pre_login_steps check_for_appontment.

End WithDateUtils.

End Nl.

(** ** The configuration reader *)

(** Modelled from the spec: [get_config_value] of [utils/config_reader.py],
    which is not among the sources.  A configuration maps a section and a
    key to a string.  A key that is there yields its value; one that is
    not yields the default when the caller gave one ([browser.type] and
    [browser.headless] have defaults) and is a configuration error
    otherwise, raised as the [KeyError] that [run] catches around the URL
    lookup. *)
Definition config_reader (cfg : gmap (string * string) string)
    (section key : string) (default : option string) : outcome (option string) :=
  match cfg !! (section, key) with
  | Some v => Ret (Some v)
  | None =>
      match default with
      | Some d => Ret (Some d)
      | None => Raise (KeyError key)
      end
  end.

(** ** Concrete collaborators *)

Module Sample.

Definition date_text : Element := {| inner_text := Ret "2024-05-01, 2024-05-03" |}.

(** A page on which every step succeeds. *)
Definition page : Page := {|
  goto := fun _ => Ret tt;
  wait_for_selector := fun _ _ => Ret (Some date_text);
  fill := fun _ _ => Ret tt;
  click := fun _ _ => Ret tt;
  select_option := fun _ _ => Ret tt
|}.

(** The same page, behind an anti-bot challenge that is never resolved. *)
Definition challenged_page : Page := {|
  goto := fun _ => Ret tt;
  wait_for_selector := fun selector _ =>
    if String.eqb selector "div[appcloudflarerecaptcha]"
    then Raise (TimeoutError "Timeout 300000ms exceeded.")
    else Ret (Some date_text);
  fill := fun _ _ => Ret tt;
  click := fun _ _ => Ret tt;
  select_option := fun _ _ => Ret tt
|}.

(** The same page, whose cookie banner cannot be clicked. *)
Definition banner_page : Page := {|
  goto := fun _ => Ret tt;
  wait_for_selector := fun _ _ => Ret (Some date_text);
  fill := fun _ _ => Ret tt;
  click := fun _ name =>
    if String.eqb name "Accept Only Necessary"
    then Raise (TimeoutError "Timeout 30000ms exceeded.")
    else Ret tt;
  select_option := fun _ _ => Ret tt
|}.

(** The same page, which never shows the login form. *)
Definition formless_page : Page := {|
  goto := fun _ => Ret tt;
  wait_for_selector := fun selector _ =>
    if String.eqb selector "#email"
    then Raise (TimeoutError "Timeout 30000ms exceeded.")
    else Ret (Some date_text);
  fill := fun _ _ => Ret tt;
  click := fun _ _ => Ret tt;
  select_option := fun _ _ => Ret tt
|}.

Definition dates_of (text : string) : outcome (option (list string)) :=
  Ret (Some ["2024-05-01"; "2024-05-03"]).

Definition bot : VfsBot := Nl.VfsBotNl dates_of "IE".

(** An adapter that asks for two parameters only. *)
Definition two_key_bot : VfsBot :=
  Build_VfsBot "IE" "NL" ["visa_center"; "visa_category"]
    Nl.login Nl.pre_login_steps (Nl.check_for_appontment dates_of).

Definition working : NotificationClient := {| send_notification := fun _ => Ret tt |}.
Definition broken : NotificationClient :=
  {| send_notification := fun _ => Raise (Exn "ConnectionError" "unreachable") |}.

(** [email] cannot deliver, every other channel can. *)
Definition clients (channel : string) : outcome NotificationClient :=
  if String.eqb channel "email" then Ret broken else Ret working.

Definition cfg : gmap (string * string) string :=
  list_to_map [
    (("browser", "type"), "chromium");
    (("browser", "headless"), "True");
    (("vfs-url", "IE-NL"), "https://visa.vfsglobal.com/irl/en/nld/login");
    (("vfs-credential", "email"), "me@example.org");
    (("vfs-credential", "password"), "secret");
    (("notification", "channels"), "email,sms")
  ].

Definition world_with (c : gmap (string * string) string) (p : Page) : World := {|
  get_config_value := config_reader c;
  stdin := ["Long Stay"];
  launch := fun _ _ _ => Ret {| new_page := Ret p |};
  get_notification_client := clients
|}.

Definition world : World := world_with cfg page.

Definition given : gmap string (option string) :=
  list_to_map [("visa_center", Some "Dublin");
               ("visa_category", Some "Tourist");
               ("visa_sub_category", None)].

Definition args : py_args := Namespace (AttrDict given).

(** The query these arguments and that line of input resolve to, and the
    dates the adapter reports. *)
Definition query : pydict :=
  [("visa_center", "Dublin"); ("visa_category", "Tourist");
   ("visa_sub_category", "Long Stay")].

Definition found : list string := ["2024-05-01"; "2024-05-03"].

(** A world with three channels, the second of which has no client. *)
Definition pager_world : World := {|
  get_config_value :=
    config_reader (<[("notification", "channels") := "sms,pager,email"]> cfg);
  stdin := ["Long Stay"];
  launch := fun _ _ _ => Ret {| new_page := Ret page |};
  get_notification_client := fun c =>
    if String.eqb c "pager" then Raise (Exn "UnsupportedChannel" "pager")
    else clients c
|}.

End Sample.

(** * Reading a trace *)

(** ** Counting events *)

Fixpoint count (p : event -> bool) (t : list event) : nat :=
  match t with
  | [] => 0
  | e :: t' => (if p e then 1 else 0) + count p t'
  end.

Definition is_close (e : event) : bool :=
  match e with EvBrowserClose => true | _ => false end.
Definition is_launch (e : event) : bool :=
  match e with EvLaunch _ _ _ => true | _ => false end.
Definition is_start (e : event) : bool :=
  match e with EvPlaywrightStart => true | _ => false end.
Definition is_stop (e : event) : bool :=
  match e with EvPlaywrightStop => true | _ => false end.
Definition is_prompt (e : event) : bool :=
  match e with EvPrompt _ => true | _ => false end.
Definition is_notify (e : event) : bool :=
  match e with EvNotify _ _ => true | _ => false end.
(** A call of one of the three adapter methods. *)
Definition is_adapter_call (e : event) : bool :=
  match e with EvPreLogin _ | EvLogin _ _ _ | EvCheck _ _ => true | _ => false end.

(** ** Notions used in the statements *)

(** A client whose delivery succeeds. *)
Definition reliable : NotificationClient :=
  {| send_notification := fun _ => Ret tt |}.

(** The world [w] with every delivery made to succeed: whichever channel
    has a client in [w] has a reliable one here; all else is as in [w]. *)
Definition healed (w : World) : World := {|
  get_config_value := get_config_value w;
  stdin := stdin w;
  launch := launch w;
  get_notification_client := fun channel =>
    match get_notification_client w channel with
    | Ret _ => Ret reliable
    | Raise e => Raise e
    end
|}.

(** The key of the URL: ["<src>-<dst>"]. *)
Definition url_key (self : VfsBot) : string :=
  source_country_code self +:+ "-" +:+ destination_country_code self.

(** The configuration keys [run] reads before it opens a browser. *)
Definition required_keys (self : VfsBot) : list (string * string) :=
  [("browser", "type"); ("browser", "headless"); ("vfs-url", url_key self);
   ("vfs-credential", "email"); ("vfs-credential", "password")].

Definition missing_required_key (cfg : gmap (string * string) string)
    (self : VfsBot) : Prop :=
  exists k, In k (required_keys self) /\ cfg !! k = None.

(** [m] returns a value and has launched no browser. *)
Definition aborts_cleanly (m : W event retval) : Prop :=
  count is_launch (tr m) = 0 /\ exists v, res m = Ret v.

(** [m] ends by raising an exception of class [cls]. *)
Definition raises (cls : string) (m : W event retval) : Prop :=
  exists e, res m = Raise e /\ exn_class e = cls.

(** The events the notification step can write. *)
Definition notification_event (e : event) : Prop :=
  match e with
  | EvNotify _ _ | EvConfig _ _ _ | EvGetClient _ | EvSend _ _ _
  | EvLog LogNoChannels | EvLog (LogSendFailed _) => True
  | _ => False
  end.

(** ** Events of one kind *)

(** The events of one kind, with the data they carry. *)
Fixpoint pick {A} (f : event -> option A) (t : list event) : list A :=
  match t with
  | [] => []
  | e :: t' => match f e with Some a => a :: pick f t' | None => pick f t' end
  end.

Definition check_of (e : event) : option (pydict * outcome (option (list string))) :=
  match e with EvCheck p o => Some (p, o) | _ => None end.
Definition login_of (e : event) : option (outcome unit) :=
  match e with EvLogin _ _ o => Some o | _ => None end.
Definition pre_login_of (e : event) : option (outcome unit) :=
  match e with EvPreLogin o => Some o | _ => None end.
Definition wait_of (e : event) : option (string * Z * outcome unit) :=
  match e with EvWaitForSelector s t o => Some (s, t, o) | _ => None end.
Definition launch_of (e : event) : option (option string * bool * list string) :=
  match e with EvLaunch b h a => Some (b, h, a) | _ => None end.
Definition notify_of (e : event) : option (pydict * list string) :=
  match e with EvNotify p d => Some (p, d) | _ => None end.
(** A delivery attempt: the channel and the message handed to its client. *)
Definition send_of (e : event) : option (string * string) :=
  match e with EvSend c m _ => Some (c, m) | _ => None end.

(** Inside the notification step, after its entry. *)
Definition fan_out_event (e : event) : Prop :=
  notification_event e /\ is_notify e = false.

(** * The paths of a run *)

(** ** The ways a session ends *)

Section SessionPaths.

Variables (w : World) (self : VfsBot).
Variables (browser_type vfs_url email_id password : option string).
Variable appointment_params : pydict.

Definition marker : string := "div[appcloudflarerecaptcha]".

Definition opening : list event :=
  [EvLaunch browser_type false ["--start-maximized"]].

Definition arrival : list event :=
  opening ++ [EvNewPage; EvLog LogNewPage; EvGoto vfs_url].

Definition challenge_passed : list event :=
  arrival ++ [EvWaitForSelector marker 300000 (Ret tt);
              EvLog LogChallengeDetected; EvWaitForTimeout 5000;
              EvLog LogTryingPreLogin].

Definition pre_login_done (t1 : list page_event) : list event :=
  challenge_passed ++ map EvPage t1
  ++ [EvPreLogin (Ret tt); EvWaitForTimeout 5000; EvLog LogTryingLogin].

Definition logged_in (t1 t2 : list page_event) : list event :=
  pre_login_done t1 ++ map EvPage t2
  ++ [EvLogin email_id password (Ret tt); EvLog LogLoggedIn;
      EvLog (LogChecking appointment_params)].

(** Each constructor is one path through the body of the [with] block:
    the trace it leaves and how it ends. *)
Inductive session_end : W event retval -> Prop :=
| launch_fails e :
    launch w browser_type false ["--start-maximized"] = Raise e ->
    session_end (opening, Raise e)
| new_page_fails browser e :
    launch w browser_type false ["--start-maximized"] = Ret browser ->
    new_page browser = Raise e ->
    session_end (opening ++ [EvNewPage], Raise e)
| goto_fails page e :
    goto page vfs_url = Raise e ->
    session_end (arrival, Raise e)
| challenge_fails page e :
    wait_for_selector page marker (Some 300000%Z) = Raise e ->
    session_end (arrival ++ [EvWaitForSelector marker 300000 (Raise e)], Raise e)
| pre_login_fails page t1 e :
    pre_login_steps self page = (t1, Raise e) ->
    session_end (challenge_passed ++ map EvPage t1 ++ [EvPreLogin (Raise e)],
                 Raise e)
| login_fails page t1 t2 e :
    login self page email_id password = (t2, Raise e) ->
    session_end (pre_login_done t1 ++ map EvPage t2
                 ++ [EvLogin email_id password (Raise e); EvBrowserClose],
                 Raise (LoginError login_failed_message))
| check_fails page t1 t2 t3 e :
    check_for_appontment self page appointment_params = (t3, Raise e) ->
    session_end (logged_in t1 t2 ++ map EvPage t3
                 ++ [EvCheck appointment_params (Raise e);
                     EvLog (LogCheckFailed e); EvBrowserClose],
                 Ret (PyBool false))
| nothing_found page t1 t2 t3 dates :
    check_for_appontment self page appointment_params = (t3, Ret dates) ->
    truthy dates = None ->
    session_end (logged_in t1 t2 ++ map EvPage t3
                 ++ [EvCheck appointment_params (Ret dates);
                     EvLog LogNoAppointments; EvBrowserClose],
                 Ret (PyBool false))
| found_and_notified page t1 t2 t3 dates tn :
    check_for_appontment self page appointment_params = (t3, Ret (Some dates)) ->
    dates <> [] ->
    notify_appointment w appointment_params dates = (tn, Ret tt) ->
    session_end (logged_in t1 t2 ++ map EvPage t3
                 ++ [EvCheck appointment_params (Ret (Some dates));
                     EvLog (LogFound (join ", " dates))]
                 ++ tn ++ [EvBrowserClose],
                 Ret (PyBool true))
| found_notify_fails page t1 t2 t3 dates tn e :
    check_for_appontment self page appointment_params = (t3, Ret (Some dates)) ->
    dates <> [] ->
    notify_appointment w appointment_params dates = (tn, Raise e) ->
    session_end (logged_in t1 t2 ++ map EvPage t3
                 ++ [EvCheck appointment_params (Ret (Some dates));
                     EvLog (LogFound (join ", " dates))]
                 ++ tn ++ [EvLog (LogCheckFailed e); EvBrowserClose],
                 Ret (PyBool false)).

End SessionPaths.

(** ** The ways a run ends *)

(** What [run] writes before it enters [with sync_playwright()]. *)
Definition setup_event (e : event) : Prop :=
  match e with
  | EvLog (LogStarting _ _) | EvLog (LogMissingConfig _)
  | EvConfig _ _ _ | EvPrompt _ => True
  | _ => False
  end.

(** A run either stops while it reads the configuration and collects the
    parameters, or goes through one session, enclosed by the start and the
    stop of Playwright. *)
Inductive run_end (w : World) (self : VfsBot) : W event retval -> Prop :=
| stops_early pre o :
    Forall setup_event pre ->
    o = Ret PyNone \/ (exists e, o = Raise e) ->
    run_end w self (pre, o)
| goes_through pre browser_type vfs_url email_id password params t o :
    Forall setup_event pre ->
    session_end w self browser_type vfs_url email_id password params (t, o) ->
    run_end w self (pre ++ EvPlaywrightStart :: t ++ [EvPlaywrightStop], o).

Definition no_appointment_params : exn :=
  AttributeError "'NoneType' object has no attribute 'appointment_params'".

(** ** More kinds of events *)

Definition goto_of (e : event) : option (option string) :=
  match e with EvGoto url => Some url | _ => None end.
Definition prompt_of (e : event) : option string :=
  match e with EvPrompt text => Some text | _ => None end.
(** A client resolution: the channel handed to [get_notification_client]. *)
Definition client_of (e : event) : option string :=
  match e with EvGetClient c => Some c | _ => None end.

(** What [run] writes inside its first [try] block: the start record and
    the lookups of the browser settings and of the URL. *)
Definition try_block_event (e : event) : Prop :=
  match e with
  | EvLog (LogStarting _ _) => True
  | EvConfig section _ _ => section <> "vfs-credential"
  | _ => False
  end.

(** The value the caller provided for a key: there is one when
    [appointment_params] is a [dict] that holds the key with a value other
    than [None]. *)
Definition provided_value (args : py_args) (key : string) : option string :=
  match args with
  | Namespace (AttrDict d) =>
      match d !! key with
      | Some (Some v) => Some v
      | _ => None
      end
  | _ => None
  end.

(** The fills and the selections among the page events of an adapter. *)
Definition is_fill (e : page_event) : bool :=
  match e with PgFill _ _ => true | _ => false end.
Definition is_click (e : page_event) : bool :=
  match e with PgClick _ _ => true | _ => false end.
Fixpoint selections (t : list page_event) : list (string * string) :=
  match t with
  | [] => []
  | PgSelectOption label value :: t' => (label, value) :: selections t'
  | _ :: t' => selections t'
  end.

(** The channels of a list up to the first one for which
    [get_notification_client] raises, and what it raises there. *)
Fixpoint resolved_prefix (w : World) (channels : list string) : list string :=
  match channels with
  | [] => []
  | c :: rest =>
      match get_notification_client w c with
      | Ret _ => c :: resolved_prefix w rest
      | Raise _ => []
      end
  end.

Fixpoint first_unresolved (w : World) (channels : list string) : option exn :=
  match channels with
  | [] => None
  | c :: rest =>
      match get_notification_client w c with
      | Ret _ => first_unresolved w rest
      | Raise e => Some e
      end
  end.

(** ** The parameter collector, as specified *)

(** The prompt for a key: its underscores are shown as spaces. *)
Definition prompt_for (key : string) : string :=
  "Enter the " +:+ replace "_" " " key +:+ ": ".

(** The collector in the words of its specification, to compare
    [get_appointment_params] with: for each required key, in order, the
    provided value when the key is present and not null, a prompted line
    otherwise.  The query is [None] when standard input runs out. *)
Fixpoint collect_spec (provided : gmap string (option string))
    (keys : list string) (lines : list string) : list event * option pydict :=
  match keys with
  | [] => ([], Some [])
  | key :: keys' =>
      match provided !! key with
      | Some (Some v) =>
          let (t, q) := collect_spec provided keys' lines in
          (t, cons (key, v) <$> q)
      | _ =>
          match lines with
          | [] => ([EvPrompt (prompt_for key)], None)
          | l :: lines' =>
              let (t, q) := collect_spec provided keys' lines' in
              (EvPrompt (prompt_for key) :: t, cons (key, l) <$> q)
          end
      end
  end.

(** ** The state of the browser *)

(** Whether a browser is there, and open. *)
Inductive browser_state := NoBrowser | BrowserOpen | BrowserClosed.

(** The events that bear on it. *)
Definition session_event (e : event) : option event :=
  match e with
  | EvLaunch _ _ _ | EvBrowserClose | EvPlaywrightStop => Some e
  | _ => None
  end.

(** One step of the browser's life, with the number of times it has gone
    from open to closed.  A launch opens it.  [browser.close()] closes an
    open browser and does nothing to a closed one.  Leaving
    [with sync_playwright()] stops Playwright, and with it a browser that
    is still open: this is how Playwright's context manager behaves, and
    what makes the [with] block a region whose teardown cannot be
    skipped. *)
Definition browser_step (s : browser_state * nat) (e : event)
  : browser_state * nat :=
  match e, fst s with
  | EvLaunch _ _ _, _ => (BrowserOpen, snd s)
  | EvBrowserClose, BrowserOpen => (BrowserClosed, S (snd s))
  | EvPlaywrightStop, BrowserOpen => (BrowserClosed, S (snd s))
  | _, _ => s
  end.

(** The browser after a trace: its state, and how often it was closed. *)
Definition browser_after (t : list event) : browser_state * nat :=
  fold_left browser_step (pick session_event t) (NoBrowser, 0).

(** * Properties *)

Lemma count_app p t u : count p (t ++ u) = count p t + count p u.
Proof. induction t as [|e t IH]; simpl; [reflexivity | rewrite IH; lia]. Qed.

Lemma count_none p t : Forall (fun e => p e = false) t -> count p t = 0.
Proof. induction 1 as [|e t He _ IH]; simpl; [reflexivity | now rewrite He, IH]. Qed.

Lemma count_page p (t : list page_event) :
  (forall e, p (EvPage e) = false) -> count p (map EvPage t) = 0.
Proof. intros Hp. induction t as [|e t IH]; simpl; [reflexivity | now rewrite Hp, IH]. Qed.

(** ** What each part of a run writes *)

Lemma param_value_prompts args key lines :
  Forall (fun e => is_prompt e = true) (tr (param_value args key lines).1).
Proof.
  unfold param_value, input.
  destruct (getattr_appointment_params args) as [[d|]|e]; simpl.
  - destruct (d !! key) as [[v|]|]; simpl; try constructor.
    destruct lines; simpl; repeat constructor.
  - destruct lines; simpl; repeat constructor.
  - constructor.
Qed.

Lemma collect_params_prompts args keys acc lines :
  Forall (fun e => is_prompt e = true) (tr (collect_params args keys acc lines)).
Proof.
  revert acc lines. induction keys as [|key keys IH]; intros acc lines; simpl.
  - constructor.
  - pose proof (param_value_prompts args key lines) as Hp.
    destruct (param_value args key lines) as [[t [v|e]] lines']; simpl in *.
    + specialize (IH (dict_set acc key v) lines').
      destruct (collect_params args keys (dict_set acc key v) lines') as [t' o].
      simpl in *. apply Forall_app; split; assumption.
    + assumption.
Qed.

Lemma deliver_events w message channel :
  Forall fan_out_event (tr (deliver w message channel)).
Proof.
  unfold deliver, bind, try_except, emit, answer, log, fan_out_event; simpl.
  destruct (get_notification_client w channel) as [client|e]; simpl.
  - destruct (send_notification client message); simpl; repeat constructor.
  - repeat constructor.
Qed.

Lemma fan_out_events w message channels :
  Forall fan_out_event (tr (fan_out w message channels)).
Proof.
  induction channels as [|channel rest IH]; simpl.
  - constructor.
  - pose proof (deliver_events w message channel) as Hd.
    destruct (deliver w message channel) as [t [[]|e]]; simpl in *.
    + destruct (fan_out w message rest) as [t' o]; simpl in *.
      apply Forall_app; split; assumption.
    + assumption.
Qed.

Lemma notify_appointment_tr w params dates :
  exists rest,
    tr (notify_appointment w params dates) = EvNotify params dates :: rest
    /\ Forall fan_out_event rest.
Proof.
  unfold notify_appointment, config, bind, emit, answer, raise, log; simpl.
  destruct (get_config_value w "notification" "channels" None) as [[channels|]|e];
    simpl.
  - destruct (Nat.eqb (String.length channels) 0); simpl.
    + eexists; split; [reflexivity|]. repeat constructor.
    + pose proof (fan_out_events w (notification_message params dates)
                    (split "," channels)) as Hf.
      destruct (fan_out w (notification_message params dates) (split "," channels))
        as [t o]; simpl in *.
      eexists; split; [reflexivity|]. constructor; [repeat constructor | assumption].
  - eexists; split; [reflexivity|]. repeat constructor.
  - eexists; split; [reflexivity|]. repeat constructor.
Qed.

Lemma notify_appointment_events w params dates :
  Forall notification_event (tr (notify_appointment w params dates)).
Proof.
  destruct (notify_appointment_tr w params dates) as (rest & -> & Hrest).
  constructor; [exact I|].
  eapply Forall_impl; [exact Hrest|]. intros e [He _]. exact He.
Qed.

(** ** The ways a session ends *)

Ltac flatten_in H :=
  unfold logged_in, pre_login_done, challenge_passed, arrival, opening, marker in H;
  repeat first [ rewrite <- app_assoc in H | rewrite <- app_assoc
               | progress simpl in H | progress simpl ].

Lemma session_ends w self browser_type vfs_url email_id password params :
  session_end w self browser_type vfs_url email_id password params
    (session w self browser_type vfs_url email_id password params).
Proof.
  unfold session.
  destruct (launch w browser_type false ["--start-maximized"])
    as [browser|e] eqn:Hlaunch;
    unfold bind, try_except, call, emit, answer, ret, raise, log; simpl.
  2: { now apply launch_fails. }
  destruct (new_page browser) as [page|e] eqn:Hpage; simpl.
  2: { now apply (new_page_fails _ _ _ _ _ _ _ browser). }
  destruct (goto page vfs_url) as [[]|e] eqn:Hgoto; simpl.
  2: { now apply (goto_fails _ _ _ _ _ _ _ page). }
  destruct (wait_for_selector page "div[appcloudflarerecaptcha]" (Some 300000%Z))
    as [el|e] eqn:Hwait; simpl.
  2: { now apply (challenge_fails _ _ _ _ _ _ _ page). }
  destruct (pre_login_steps self page) as [t1 [[]|e]] eqn:Hpre; simpl.
  2: { now apply (pre_login_fails _ _ _ _ _ _ _ page). }
  destruct (login self page email_id password) as [t2 [[]|e]] eqn:Hlogin; simpl.
  2: { pose proof (login_fails w self browser_type vfs_url email_id password
                     params page t1 t2 e Hlogin) as H.
       flatten_in H. exact H. }
  destruct (check_for_appontment self page params)
    as [t3 [dates|e]] eqn:Hcheck; simpl.
  2: { pose proof (check_fails w self browser_type vfs_url email_id password
                     params page t1 t2 t3 e Hcheck) as H.
       flatten_in H. exact H. }
  destruct (truthy dates) as [ds|] eqn:Htruthy; simpl.
  - assert (dates = Some ds /\ ds <> []) as [-> Hne].
    { destruct dates as [[|d l]|]; simpl in Htruthy; inversion Htruthy; subst.
      split; [reflexivity | discriminate]. }
    destruct (notify_appointment w params ds) as [tn [[]|e]] eqn:Hn; simpl.
    + pose proof (found_and_notified w self browser_type vfs_url email_id password
                    params page t1 t2 t3 ds tn Hcheck Hne Hn) as H.
      flatten_in H. rewrite ?app_nil_r. exact H.
    + pose proof (found_notify_fails w self browser_type vfs_url email_id password
                    params page t1 t2 t3 ds tn e Hcheck Hne Hn) as H.
      flatten_in H. exact H.
  - pose proof (nothing_found w self browser_type vfs_url email_id password
                  params page t1 t2 t3 dates Hcheck Htruthy) as H.
    flatten_in H. exact H.
Qed.

Lemma run_ends w self args : run_end w self (run w self args).
Proof.
  unfold run, read_configuration, config, get_appointment_params.
  unfold bind, try_except, with_scope, emit, answer, ret, raise, log; simpl.
  destruct (get_config_value w "browser" "type" (Some "firefox")) as [bt|e]; simpl.
  2: { destruct (is_KeyError e); simpl; apply stops_early; eauto;
       repeat constructor. }
  destruct (get_config_value w "browser" "headless" (Some "True")) as [hm|e]; simpl.
  2: { destruct (is_KeyError e); simpl; apply stops_early; eauto;
       repeat constructor. }
  destruct (get_config_value w "vfs-url" _ None) as [url|e]; simpl.
  2: { destruct (is_KeyError e); simpl; apply stops_early; eauto;
       repeat constructor. }
  destruct (get_config_value w "vfs-credential" "email" None) as [em|e]; simpl.
  2: { apply stops_early; eauto; repeat constructor. }
  destruct (get_config_value w "vfs-credential" "password" None) as [pw|e]; simpl.
  2: { apply stops_early; eauto; repeat constructor. }
  pose proof (collect_params_prompts args (appointment_param_keys self) []
                (stdin w)) as Hprompts.
  destruct (collect_params args (appointment_param_keys self) [] (stdin w))
    as [tp [params|e]]; simpl in *.
  2: { apply stops_early; eauto. repeat (constructor; [exact I|]).
       eapply Forall_impl; [exact Hprompts|]. intros [] H; simpl in *;
         try discriminate; exact I. }
  pose proof (session_ends w self bt url em pw params) as Hs.
  destruct (session w self bt url em pw params) as [t o].
  pose proof (goes_through w self
    (EvLog (LogStarting (upper (source_country_code self))
                        (upper (destination_country_code self)))
     :: EvConfig "browser" "type" (Some "firefox")
     :: EvConfig "browser" "headless" (Some "True")
     :: EvConfig "vfs-url"
          (source_country_code self +:+ "-" +:+ destination_country_code self) None
     :: EvConfig "vfs-credential" "email" None
     :: EvConfig "vfs-credential" "password" None :: tp)
    bt url em pw params t o) as H.
  simpl in H. apply H; [|exact Hs].
  repeat (constructor; [exact I|]).
  eapply Forall_impl; [exact Hprompts|]. intros [] H'; simpl in *;
    try discriminate; exact I.
Qed.

Lemma pick_app {A} (f : event -> option A) t u :
  pick f (t ++ u) = pick f t ++ pick f u.
Proof.
  induction t as [|e t IH]; simpl; [reflexivity|].
  destruct (f e); simpl; now rewrite IH.
Qed.

Lemma pick_none_of {A} (P : event -> Prop) (f : event -> option A) t :
  (forall e, P e -> f e = None) -> Forall P t -> pick f t = [].
Proof.
  intros HP. induction 1 as [|e t He _ IH]; simpl; [reflexivity|].
  now rewrite (HP e He).
Qed.

Lemma pick_page {A} (f : event -> option A) (t : list page_event) :
  (forall e, f (EvPage e) = None) -> pick f (map EvPage t) = [].
Proof. intros Hf. induction t as [|e t IH]; simpl; [reflexivity | now rewrite Hf]. Qed.

Lemma In_pick {A} (f : event -> option A) e a t :
  In e t -> f e = Some a -> In a (pick f t).
Proof.
  induction t as [|e' t IH]; simpl; [tauto|].
  intros [-> | Hin] He.
  - rewrite He. now left.
  - destruct (f e'); [right|]; now apply IH.
Qed.

Lemma count_none_of (P : event -> Prop) p t :
  (forall e, P e -> p e = false) -> Forall P t -> count p t = 0.
Proof.
  intros HP H. apply count_none. eapply Forall_impl; [exact H | exact HP].
Qed.

(** Settles that events of one family are not of the kind looked for. *)
Ltac kind_solver :=
  let e := fresh "e" in
  intros e; unfold fan_out_event; destruct e; simpl;
  try match goal with r : logrec |- _ => destruct r; simpl end;
  intros;
  try match goal with H : _ /\ _ |- _ => destruct H end;
  first [reflexivity | contradiction | discriminate | tauto].

(** Normalises [pick] and [count] over the trace of a path. *)
Ltac sub_traces :=
  repeat match goal with
  | Hn : notify_appointment ?w ?p ?d = (?tn, _) |- _ =>
      lazymatch goal with
      | _ : Forall notification_event tn |- _ => fail
      | _ =>
          let H := fresh "Hnote" in
          pose proof (notify_appointment_events w p d) as H;
          rewrite Hn in H; simpl in H
      end
  end.

Ltac norm_step :=
  match goal with
  | |- context [pick ?f (?a ++ ?b)] => rewrite (pick_app f a b)
  | |- context [count ?p (?a ++ ?b)] => rewrite (count_app p a b)
  | |- context [pick ?f (map EvPage ?t)] =>
      rewrite (pick_page f t) by (intros; reflexivity)
  | |- context [count ?p (map EvPage ?t)] =>
      rewrite (count_page p t) by (intros; reflexivity)
  | Hf : Forall ?P ?t |- context [pick ?f ?t] =>
      rewrite (pick_none_of P f t ltac:(kind_solver) Hf)
  | Hf : Forall ?P ?t |- context [count ?p ?t] =>
      rewrite (count_none_of P p t ltac:(kind_solver) Hf)
  | _ => progress simpl
  end.

Ltac norm :=
  sub_traces;
  unfold logged_in, pre_login_done, challenge_passed, arrival, opening, marker;
  repeat norm_step.

(** Splits a statement about [run] into the paths of [run_end] and
    [session_end], with the trace of each path written out. *)
Ltac paths w self args :=
  let Hrun := fresh "Hrun" in
  let Hs := fresh "Hs" in
  pose proof (run_ends w self args) as Hrun;
  destruct (run w self args) as [? ?];
  unfold tr, res; simpl fst; simpl snd;
  inversion Hrun as [? ? ? ? | ? ? ? ? ? ? ? ? ? Hs]; subst; clear Hrun;
  [ | inversion Hs; subst; clear Hs ].

(** * The appointment check *)

(** C4. When [check_for_appontment] returns nothing ([None] or an empty
    list) or raises, [notify_appointment] is not called, [run] returns
    [False], and so no exception of the check leaves [run]. *)
Theorem run_without_result_returns_false w self args params o :
  In (EvCheck params o) (tr (run w self args)) ->
  o = Ret None \/ o = Ret (Some []) \/ (exists e, o = Raise e) ->
  res (run w self args) = Ret (PyBool false)
  /\ count is_notify (tr (run w self args)) = 0.
Proof.
  intros Hin Ho.
  apply (In_pick check_of _ (params, o)) in Hin; [|reflexivity].
  revert Hin. paths w self args; norm; intros Hin.
  all: try contradiction.
  all: try (destruct Hin as [Hin|[]]; inversion Hin; subst; clear Hin).
  all: try (split; [reflexivity | lia]).
  all: destruct Ho as [Ho|[Ho|[e' Ho]]]; try discriminate Ho.
  all: inversion Ho; subst; congruence.
Qed.

(** Finds an event in a trace that has been computed. *)
Ltac find_event := vm_compute; repeat first [left; reflexivity | right].

Lemma run_without_result_witness :
  res (run (Sample.world_with Sample.cfg Sample.page)
           (Nl.VfsBotNl (fun _ => Ret (Some [])) "IE") Sample.args)
  = Ret (PyBool false)
  /\ count is_notify
       (tr (run (Sample.world_with Sample.cfg Sample.page)
                (Nl.VfsBotNl (fun _ => Ret (Some [])) "IE") Sample.args)) = 0.
Proof.
  apply (run_without_result_returns_false _ _ _
           [("visa_center", "Dublin"); ("visa_category", "Tourist");
            ("visa_sub_category", "Long Stay")] (Ret (Some []))).
  - find_event.
  - right; left; reflexivity.
Defined.

(** * Login *)

(** C6. When the adapter's [login] raises, whatever it raises, [run] raises
    one exception: its class is [LoginError] and its text, between the
    colour codes, is "Login failed. Please verify your username and
    password by logging in to the browser and try again."; the adapter's
    own exception does not leave [run], and the appointment check is not
    reached. *)
Theorem login_failure_raises_LoginError w self args email password e :
  In (EvLogin email password (Raise e)) (tr (run w self args)) ->
  res (run w self args)
  = Raise
      {| exn_class := "LoginError";
         exn_arg :=
           String "027"
             ("[1;31mLogin failed. Please verify your username and password by logging in to the browser and try again."
              +:+ String "027" "[0m") |}
  /\ (forall e', res (run w self args) = Raise e' ->
                 exn_class e' = "LoginError"
                 /\ contains (exn_arg e') "Login failed."
                 /\ contains (exn_arg e')
                      "Please verify your username and password by logging in to the browser and try again.")
  /\ pick check_of (tr (run w self args)) = [].
Proof.
  intros Hin.
  apply (In_pick login_of _ (Raise e)) in Hin; [|reflexivity].
  revert Hin. paths w self args; norm; intros Hin.
  all: try contradiction.
  all: try (destruct Hin as [Hin|[]]; discriminate Hin).
  split; [reflexivity|]. split; [|reflexivity].
  intros e' [= <-]. split; [reflexivity|]. split.
  - exists (String "027" "[1;31m"),
      (" Please verify your username and password by logging in to the browser and try again."
       +:+ String "027" "[0m").
    reflexivity.
  - exists (String "027" "[1;31mLogin failed. "), (String "027" "[0m").
    reflexivity.
Qed.

Lemma login_failure_witness :
  let r := run (Sample.world_with Sample.cfg Sample.formless_page)
               Sample.bot Sample.args in
  res r
  = Raise
      {| exn_class := "LoginError";
         exn_arg :=
           String "027"
             ("[1;31mLogin failed. Please verify your username and password by logging in to the browser and try again."
              +:+ String "027" "[0m") |}
  /\ (forall e', res r = Raise e' ->
                 exn_class e' = "LoginError"
                 /\ contains (exn_arg e') "Login failed."
                 /\ contains (exn_arg e')
                      "Please verify your username and password by logging in to the browser and try again.")
  /\ pick check_of (tr r) = [].
Proof.
  apply (login_failure_raises_LoginError
           (Sample.world_with Sample.cfg Sample.formless_page)
           Sample.bot Sample.args
           (Some "me@example.org") (Some "secret")
           (Exn "Exception"
              "Login form elements not found. The page might be stuck in a loading state.")).
  find_event.
Defined.

(** * The browser session *)

(** Playwright is stopped exactly when it was started, once, and as the
    last thing [run] does. *)
Lemma playwright_scope w self args :
  (count is_start (tr (run w self args)) = 0
   /\ count is_stop (tr (run w self args)) = 0
   /\ count is_launch (tr (run w self args)) = 0)
  \/ (count is_start (tr (run w self args)) = 1
      /\ count is_stop (tr (run w self args)) = 1
      /\ last (tr (run w self args)) = Some EvPlaywrightStop).
Proof.
  pose proof (run_ends w self args) as Hrun.
  destruct (run w self args) as [t o]. unfold tr; simpl.
  inversion Hrun as [? ? Hpre ? | ? ? ? ? ? ? ? ? Hpre Hs]; subst; clear Hrun.
  - left. repeat split; norm; reflexivity.
  - right. split; [|split].
    3: { rewrite app_comm_cons, app_assoc. apply last_snoc. }
    all: inversion Hs; subst; clear Hs; norm; reflexivity.
Qed.

(** X25. [browser.close()] is called as often as [login] is: once on the
    paths that reach the login step and on no other path. *)
Lemma close_count w self args :
  count is_close (tr (run w self args))
  = length (pick login_of (tr (run w self args))).
Proof. paths w self args; norm; reflexivity. Qed.

(** At most one browser is launched, and never before the configuration
    has been read and the parameters collected. *)
Lemma launch_count w self args :
  count is_launch (tr (run w self args))
  = count is_start (tr (run w self args)).
Proof. paths w self args; norm; reflexivity. Qed.

(** With a cookie banner that cannot be clicked, [pre_login_steps] raises
    and the exception leaves [run]: [browser.close()] is not called on
    this path, the browser goes with the stop of Playwright. *)
Lemma pre_login_failure_has_no_close_call :
  let r := run (Sample.world_with Sample.cfg Sample.banner_page)
               Sample.bot Sample.args in
  pick pre_login_of (tr r) = [Raise (TimeoutError "Timeout 30000ms exceeded.")]
  /\ res r = Raise (TimeoutError "Timeout 30000ms exceeded.")
  /\ count is_launch (tr r) = 1
  /\ count is_close (tr r) = 0
  /\ count is_stop (tr r) = 1.
Proof. vm_compute. repeat split; reflexivity. Qed.

(** The same on the challenge timeout. *)
Lemma challenge_timeout_has_no_close_call :
  let r := run (Sample.world_with Sample.cfg Sample.challenged_page)
               Sample.bot Sample.args in
  count is_launch (tr r) = 1 /\ count is_close (tr r) = 0
  /\ count is_stop (tr r) = 1.
Proof. vm_compute. repeat split; reflexivity. Qed.

(** C1. In every run that has launched a browser, on whatever path the run
    ends (it returns, or an exception of the navigation, of the challenge
    wait, of [pre_login_steps], of [login] or of the check is on its way
    out), the browser has gone from open to closed exactly once and is
    closed when [run] is left: by [browser.close()] on the paths that reach
    the login step, by the exit of [with sync_playwright()] on the others.
    Playwright has been started and stopped once, the stop being the last
    thing [run] does. *)
Theorem session_closed_exactly_once
    w self args browser_type headless arguments browser :
  In (EvLaunch browser_type headless arguments) (tr (run w self args)) ->
  launch w browser_type headless arguments = Ret browser ->
  browser_after (tr (run w self args)) = (BrowserClosed, 1)
  /\ count is_launch (tr (run w self args)) = 1
  /\ count is_close (tr (run w self args)) <= 1
  /\ count is_start (tr (run w self args)) = 1
  /\ count is_stop (tr (run w self args)) = 1
  /\ last (tr (run w self args)) = Some EvPlaywrightStop.
Proof.
  intros Hin _.
  assert (Hlaunched : count is_launch (tr (run w self args)) = 1).
  { apply (In_pick launch_of _ (browser_type, headless, arguments)) in Hin;
      [|reflexivity].
    revert Hin. paths w self args; norm; intros Hin;
      first [contradiction | reflexivity]. }
  destruct (playwright_scope w self args)
    as [(_ & _ & Hnone) | (Hstart & Hstop & Hlast)]; [congruence|].
  split; [|split; [exact Hlaunched|split; [|split; [exact Hstart|split;
    [exact Hstop | exact Hlast]]]]].
  - clear Hstart Hstop Hlast.
    revert Hlaunched. unfold browser_after.
    paths w self args; norm; intros Hlaunched;
      first [discriminate Hlaunched | reflexivity].
  - clear Hstart Hstop Hlast Hlaunched Hin.
    paths w self args; norm; lia.
Qed.

Lemma session_closed_witness :
  let r := run (Sample.world_with Sample.cfg Sample.banner_page)
               Sample.bot Sample.args in
  browser_after (tr r) = (BrowserClosed, 1)
  /\ count is_launch (tr r) = 1
  /\ count is_close (tr r) <= 1
  /\ count is_start (tr r) = 1
  /\ count is_stop (tr r) = 1
  /\ last (tr r) = Some EvPlaywrightStop.
Proof.
  apply (session_closed_exactly_once
           (Sample.world_with Sample.cfg Sample.banner_page)
           Sample.bot Sample.args
           (Some "chromium") false ["--start-maximized"]
           {| new_page := Ret Sample.banner_page |}).
  - find_event.
  - reflexivity.
Defined.

(** The same on each way out of a session: with the check done, with a
    login that raises, with a challenge that is not resolved. *)
Lemma session_closed_on_each_path :
  browser_after (tr (run Sample.world Sample.bot Sample.args))
  = (BrowserClosed, 1)
  /\ browser_after
       (tr (run (Sample.world_with Sample.cfg Sample.formless_page)
                Sample.bot Sample.args))
     = (BrowserClosed, 1)
  /\ browser_after
       (tr (run (Sample.world_with Sample.cfg Sample.challenged_page)
                Sample.bot Sample.args))
     = (BrowserClosed, 1).
Proof. vm_compute. repeat split; reflexivity. Qed.

(** The only wait [run] itself makes is the one for the challenge marker,
    bounded by 300000 ms. *)
Lemma challenge_wait_is_bounded w self args selector timeout o :
  In (EvWaitForSelector selector timeout o) (tr (run w self args)) ->
  selector = marker /\ timeout = 300000%Z.
Proof.
  intros Hin.
  apply (In_pick wait_of _ (selector, timeout, o)) in Hin; [|reflexivity].
  revert Hin. paths w self args; norm; intros Hin; try contradiction.
  all: destruct Hin as [Hin|[]]; inversion Hin; subst; split; reflexivity.
Qed.

(** C8 as stated fails: the exception of the expired wait is Playwright's
    own, no [ChallengeTimeoutError]. *)
Lemma challenge_timeout_counterexample :
  let r := run (Sample.world_with Sample.cfg Sample.challenged_page)
               Sample.bot Sample.args in
  In (EvWaitForSelector marker 300000
        (Raise (TimeoutError "Timeout 300000ms exceeded."))) (tr r)
  /\ ~ raises "ChallengeTimeoutError" r.
Proof.
  split.
  - find_event.
  - intros (e & He & Hclass). vm_compute in He. inversion He; subst.
    discriminate Hclass.
Qed.

(** C8, amended.  When the wait for the challenge marker raises, the very
    exception of the wait leaves [run]; no adapter method has been called
    and nothing is notified; Playwright is stopped, as the last step. *)
Theorem challenge_timeout_propagates w self args selector timeout e :
  In (EvWaitForSelector selector timeout (Raise e)) (tr (run w self args)) ->
  res (run w self args) = Raise e
  /\ count is_adapter_call (tr (run w self args)) = 0
  /\ count is_notify (tr (run w self args)) = 0
  /\ count is_stop (tr (run w self args)) = 1
  /\ last (tr (run w self args)) = Some EvPlaywrightStop.
Proof.
  intros Hin.
  assert (Hscope : count is_stop (tr (run w self args)) = 1
                   /\ last (tr (run w self args)) = Some EvPlaywrightStop).
  { destruct (playwright_scope w self args) as [(Hzero & _ & _) | (_ & H1 & H2)];
      [exfalso | tauto].
    apply (In_pick wait_of _ (selector, timeout, Raise e)) in Hin; [|reflexivity].
    revert Hzero Hin. paths w self args; norm; intros Hzero Hin;
      first [contradiction | discriminate Hzero]. }
  destruct Hscope as [Hstop Hlast].
  repeat split; [| | | exact Hstop | exact Hlast].
  all: clear Hstop Hlast.
  all: apply (In_pick wait_of _ (selector, timeout, Raise e)) in Hin; [|reflexivity].
  all: revert Hin; paths w self args; norm; intros Hwait; try contradiction.
  all: try (destruct Hwait as [Hwait|[]]; inversion Hwait; subst; reflexivity).
Qed.

Lemma challenge_timeout_witness :
  let r := run (Sample.world_with Sample.cfg Sample.challenged_page)
               Sample.bot Sample.args in
  res r = Raise (TimeoutError "Timeout 300000ms exceeded.")
  /\ count is_adapter_call (tr r) = 0
  /\ count is_notify (tr r) = 0
  /\ count is_stop (tr r) = 1
  /\ last (tr r) = Some EvPlaywrightStop.
Proof.
  apply (challenge_timeout_propagates _ _ _ marker 300000%Z).
  find_event.
Defined.

(** X26. Whatever the configuration says, a browser is launched with
    [headless=False] and the one argument [--start-maximized]. *)
Lemma launch_is_never_headless w self args browser_type headless arguments :
  In (EvLaunch browser_type headless arguments) (tr (run w self args)) ->
  headless = false /\ arguments = ["--start-maximized"].
Proof.
  intros Hin.
  apply (In_pick launch_of _ (browser_type, headless, arguments)) in Hin;
    [|reflexivity].
  revert Hin. paths w self args; norm; intros Hin; try contradiction.
  all: destruct Hin as [Hin|[]]; inversion Hin; subst; split; reflexivity.
Qed.

(** C9. With [browser.headless] set to [True] in the configuration, the
    value is read and the browser is launched with [headless=False]. *)
Theorem configured_headless_is_ignored :
  Sample.cfg !! ("browser", "headless") = Some "True"
  /\ In (EvConfig "browser" "headless" (Some "True"))
        (tr (run Sample.world Sample.bot Sample.args))
  /\ pick launch_of (tr (run Sample.world Sample.bot Sample.args))
     = [(Some "chromium", false, ["--start-maximized"])].
Proof.
  split; [reflexivity|]. split; [find_event | vm_compute; reflexivity].
Qed.

(** * Parameter collection *)

Lemma get_appointment_params_of_None self lines :
  appointment_param_keys self <> [] ->
  get_appointment_params self ArgsNone lines = ([], Raise no_appointment_params).
Proof.
  unfold get_appointment_params.
  destruct (appointment_param_keys self) as [|key keys]; [congruence|].
  intros _. reflexivity.
Qed.

(** C10. With [args] left at [None] and at least one parameter key, the
    collection of the parameters raises [AttributeError] without a single
    prompt; in [run] no browser is launched and nothing is prompted, and
    when the configuration has been read the [AttributeError] is what
    [run] raises. *)
Theorem run_without_args_raises_AttributeError w self :
  appointment_param_keys self <> [] ->
  (forall lines,
      get_appointment_params self ArgsNone lines
      = ([], Raise no_appointment_params))
  /\ count is_launch (tr (run w self ArgsNone)) = 0
  /\ count is_start (tr (run w self ArgsNone)) = 0
  /\ count is_prompt (tr (run w self ArgsNone)) = 0
  /\ (forall settings email_id password,
         res (read_configuration w self) = Ret (Some settings) ->
         get_config_value w "vfs-credential" "email" None = Ret email_id ->
         get_config_value w "vfs-credential" "password" None = Ret password ->
         res (run w self ArgsNone) = Raise no_appointment_params).
Proof.
  intros Hkeys. split; [intros; now apply get_appointment_params_of_None|].
  unfold run. rewrite (get_appointment_params_of_None self (stdin w) Hkeys).
  unfold read_configuration, config.
  unfold bind, try_except, with_scope, emit, answer, ret, raise, log, tr, res; simpl.
  destruct (get_config_value w "browser" "type" (Some "firefox")) as [bt|e]; simpl.
  2: { destruct (is_KeyError e); simpl; repeat split; try reflexivity;
       intros; discriminate. }
  destruct (get_config_value w "browser" "headless" (Some "True")) as [hm|e]; simpl.
  2: { destruct (is_KeyError e); simpl; repeat split; try reflexivity;
       intros; discriminate. }
  destruct (get_config_value w "vfs-url" _ None) as [url|e]; simpl.
  2: { destruct (is_KeyError e); simpl; repeat split; try reflexivity;
       intros; discriminate. }
  destruct (get_config_value w "vfs-credential" "email" None) as [em|e]; simpl.
  2: { repeat split; try reflexivity; intros; discriminate. }
  destruct (get_config_value w "vfs-credential" "password" None) as [pw|e]; simpl.
  2: { repeat split; try reflexivity; intros; discriminate. }
  repeat split; reflexivity.
Qed.

Lemma run_without_args_witness :
  appointment_param_keys Sample.bot <> []
  /\ get_appointment_params Sample.bot ArgsNone (stdin Sample.world)
     = ([], Raise no_appointment_params)
  /\ count is_launch (tr (run Sample.world Sample.bot ArgsNone)) = 0
  /\ count is_prompt (tr (run Sample.world Sample.bot ArgsNone)) = 0
  /\ res (run Sample.world Sample.bot ArgsNone) = Raise no_appointment_params.
Proof.
  assert (Hkeys : appointment_param_keys Sample.bot <> []) by (simpl; discriminate).
  destruct (run_without_args_raises_AttributeError Sample.world Sample.bot Hkeys)
    as (Hcollect & Hlaunch & _ & Hprompt & Hrun).
  split; [exact Hkeys|]. split; [apply Hcollect|].
  split; [exact Hlaunch|]. split; [exact Hprompt|].
  apply (Hrun (Some "chromium", Some "True",
               Some "https://visa.vfsglobal.com/irl/en/nld/login")
              (Some "me@example.org") (Some "secret")); reflexivity.
Defined.

Lemma dict_set_fresh (d : pydict) k v :
  ~ In k (map fst d) -> dict_set d k v = d ++ [(k, v)].
Proof.
  induction d as [|[k' v'] d IH]; simpl; [reflexivity|].
  intros Hfresh. destruct (String.eqb_spec k' k) as [->|Hne].
  - exfalso. apply Hfresh. now left.
  - rewrite IH; [reflexivity|]. intros Hin. apply Hfresh. now right.
Qed.

(** With distinct keys that are all in the [dict] of provided arguments,
    the collector does what its specification says: the provided values
    are used, a prompt is shown for exactly the keys whose value is
    [None], and the query has every key, in order. *)
Lemma collect_params_refines d keys acc lines :
  NoDup keys ->
  (forall k, In k keys -> ~ In k (map fst acc)) ->
  (forall k, In k keys -> is_Some (d !! k)) ->
  collect_params (Namespace (AttrDict d)) keys acc lines
  = (fst (collect_spec d keys lines),
     match snd (collect_spec d keys lines) with
     | Some q => Ret (acc ++ q)
     | None => Raise EOFError
     end).
Proof.
  intros Hnodup. revert acc lines.
  induction Hnodup as [|key keys Hkey Hnodup IH]; intros acc lines Hfresh Hdom.
  - simpl. now rewrite app_nil_r.
  - assert (Hnext : forall v k, In k keys -> ~ In k (map fst (acc ++ [(key, v)]))).
    { intros v k Hk. rewrite map_app, in_app_iff. simpl.
      intros [Hin | [<- | []]].
      - apply (Hfresh k); [now right | exact Hin].
      - apply Hkey. apply list_elem_of_In. exact Hk. }
    assert (Hdom' : forall k, In k keys -> is_Some (d !! k)).
    { intros k Hk. apply Hdom. now right. }
    destruct (Hdom key (or_introl eq_refl)) as [value Hvalue].
    simpl. unfold param_value, input, prompt_for. simpl. rewrite Hvalue.
    destruct value as [v|].
    + unfold bind, ret; simpl.
      rewrite (dict_set_fresh acc key v (Hfresh key (or_introl eq_refl))).
      rewrite (IH (acc ++ [(key, v)]) lines (Hnext v) Hdom').
      destruct (collect_spec d keys lines) as [t [q|]]; simpl;
        [now rewrite <- app_assoc | reflexivity].
    + destruct lines as [|l lines]; [reflexivity|].
      unfold bind; simpl.
      rewrite (dict_set_fresh acc key l (Hfresh key (or_introl eq_refl))).
      rewrite (IH (acc ++ [(key, l)]) lines (Hnext l) Hdom').
      destruct (collect_spec d keys lines) as [t [q|]]; simpl;
        [now rewrite <- app_assoc | reflexivity].
Qed.

(** When [appointment_params] is [None], every key is prompted for. *)
Lemma collect_params_prompts_all keys acc lines :
  NoDup keys ->
  (forall k, In k keys -> ~ In k (map fst acc)) ->
  collect_params (Namespace AttrNone) keys acc lines
  = (fst (collect_spec (∅ : gmap string (option string)) keys lines),
     match snd (collect_spec (∅ : gmap string (option string)) keys lines) with
     | Some q => Ret (acc ++ q)
     | None => Raise EOFError
     end).
Proof.
  intros Hnodup. revert acc lines.
  induction Hnodup as [|key keys Hkey Hnodup IH]; intros acc lines Hfresh.
  - simpl. now rewrite app_nil_r.
  - assert (Hnext : forall v k, In k keys -> ~ In k (map fst (acc ++ [(key, v)]))).
    { intros v k Hk. rewrite map_app, in_app_iff. simpl.
      intros [Hin | [<- | []]].
      - apply (Hfresh k); [now right | exact Hin].
      - apply Hkey. apply list_elem_of_In. exact Hk. }
    simpl. unfold param_value, input, prompt_for. simpl.
    rewrite lookup_empty.
    destruct lines as [|l lines]; [reflexivity|].
    unfold bind; simpl.
    rewrite (dict_set_fresh acc key l (Hfresh key (or_introl eq_refl))).
    rewrite (IH (acc ++ [(key, l)]) lines (Hnext l)).
    destruct (collect_spec ∅ keys lines) as [t [q|]]; simpl;
      [now rewrite <- app_assoc | reflexivity].
Qed.

(** C5. With the keys [visa_center] and [visa_category] and the arguments
    [{"visa_center": "Dublin"}], the lookup of the second key in the [dict]
    raises [KeyError]: nothing is prompted and no query is returned,
    whatever standard input holds; the collector as specified prompts for
    [visa_category] and returns both entries. *)
Theorem partial_args_raise_KeyError lines :
  get_appointment_params Sample.two_key_bot
    (Namespace (AttrDict {[ "visa_center" := Some "Dublin" ]})) lines
  = ([], Raise (KeyError "visa_category"))
  /\ collect_spec {[ "visa_center" := Some "Dublin" ]}
       (appointment_param_keys Sample.two_key_bot) ("Tourist" :: lines)
     = ([EvPrompt "Enter the visa category: "],
        Some [("visa_center", "Dublin"); ("visa_category", "Tourist")]).
Proof. split; reflexivity. Qed.

(** * Configuration *)

Lemma config_reader_default cfg section key default :
  config_reader cfg section key (Some default)
  = Ret (Some (match cfg !! (section, key) with Some v => v | None => default end)).
Proof. unfold config_reader. destruct (cfg !! (section, key)); reflexivity. Qed.

(** C2 as stated fails: without [browser.type] the run goes on with
    [firefox] and launches a browser. *)
Lemma missing_browser_type_counterexample :
  let cfg := delete ("browser", "type") Sample.cfg in
  missing_required_key cfg Sample.bot
  /\ ~ aborts_cleanly (run (Sample.world_with cfg Sample.page) Sample.bot Sample.args).
Proof.
  split.
  - exists ("browser", "type"). split; [left; reflexivity | reflexivity].
  - intros [Hlaunch _]. vm_compute in Hlaunch. discriminate Hlaunch.
Qed.

(** C2, amended.  When the configuration has no URL under the key
    ["<src>-<dst>"], [run] logs the missing key and returns (Python's
    [None]): no exception leaves it, Playwright is not started, no browser
    is launched, and the credentials are not even looked up. *)
Theorem missing_url_aborts_run w cfg self args :
  get_config_value w = config_reader cfg ->
  cfg !! ("vfs-url", url_key self) = None ->
  res (run w self args) = Ret PyNone
  /\ count is_start (tr (run w self args)) = 0
  /\ count is_launch (tr (run w self args)) = 0
  /\ tr (run w self args)
     = [EvLog (LogStarting (upper (source_country_code self))
                           (upper (destination_country_code self)));
        EvConfig "browser" "type" (Some "firefox");
        EvConfig "browser" "headless" (Some "True");
        EvConfig "vfs-url" (url_key self) None;
        EvLog (LogMissingConfig (KeyError (url_key self)))].
Proof.
  intros Hreader Hurl.
  assert (Hu : config_reader cfg "vfs-url" (url_key self) None
               = Raise (KeyError (url_key self))).
  { unfold config_reader. now rewrite Hurl. }
  unfold url_key in *.
  unfold run, read_configuration, config. rewrite Hreader, Hu.
  rewrite !config_reader_default.
  repeat split; reflexivity.
Qed.

Lemma missing_url_witness :
  let cfg := delete ("vfs-url", "IE-NL") Sample.cfg in
  let r := run (Sample.world_with cfg Sample.page) Sample.bot Sample.args in
  res r = Ret PyNone
  /\ count is_start (tr r) = 0
  /\ count is_launch (tr r) = 0
  /\ tr r = [EvLog (LogStarting "IE" "NL");
             EvConfig "browser" "type" (Some "firefox");
             EvConfig "browser" "headless" (Some "True");
             EvConfig "vfs-url" "IE-NL" None;
             EvLog (LogMissingConfig (KeyError "IE-NL"))].
Proof.
  apply (missing_url_aborts_run
           (Sample.world_with (delete ("vfs-url", "IE-NL") Sample.cfg) Sample.page)
           (delete ("vfs-url", "IE-NL") Sample.cfg) Sample.bot Sample.args).
  - reflexivity.
  - reflexivity.
Defined.

(** The browser settings have defaults: their absence stops nothing. *)
Lemma browser_settings_default w cfg self url :
  get_config_value w = config_reader cfg ->
  cfg !! ("vfs-url", url_key self) = Some url ->
  res (read_configuration w self)
  = Ret (Some (Some (default "firefox" (cfg !! ("browser", "type"))),
               Some (default "True" (cfg !! ("browser", "headless"))),
               Some url)).
Proof.
  intros Hreader Hurl.
  assert (Hu : config_reader cfg "vfs-url" (url_key self) None = Ret (Some url)).
  { unfold config_reader. now rewrite Hurl. }
  unfold url_key in *.
  unfold read_configuration, config. rewrite Hreader, Hu.
  rewrite !config_reader_default.
  destruct (cfg !! ("browser", "type")), (cfg !! ("browser", "headless"));
    reflexivity.
Qed.

(** The credentials are read outside the [try] block: the [KeyError] of a
    missing one leaves [run]. *)
Lemma missing_credential_raises :
  let cfg := delete ("vfs-credential", "email") Sample.cfg in
  let r := run (Sample.world_with cfg Sample.page) Sample.bot Sample.args in
  res r = Raise (KeyError "email") /\ count is_launch (tr r) = 0.
Proof. vm_compute. split; reflexivity. Qed.

(** * Notification *)

Lemma append_assoc (a b c : string) : (a +:+ b) +:+ c = a +:+ (b +:+ c).
Proof.
  induction a as [|x a IH]; [reflexivity|].
  change (String x ((a +:+ b) +:+ c) = String x (a +:+ (b +:+ c))).
  now rewrite IH.
Qed.

Lemma append_nil_r (a : string) : a +:+ "" = a.
Proof.
  induction a as [|x a IH]; [reflexivity|].
  change (String x (a +:+ "") = String x a). now rewrite IH.
Qed.

Lemma contains_refl (s : string) : contains s s.
Proof. exists "", "". simpl. now rewrite append_nil_r. Qed.

Lemma contains_append_l (pre s needle : string) :
  contains s needle -> contains (pre +:+ s) needle.
Proof.
  intros (a & b & ->). exists (pre +:+ a), b. now rewrite append_assoc.
Qed.

Lemma contains_append_r (s post needle : string) :
  contains s needle -> contains (s +:+ post) needle.
Proof.
  intros (a & b & ->). exists a, (b +:+ post). now rewrite !append_assoc.
Qed.

Lemma join_contains sep parts x : In x parts -> contains (join sep parts) x.
Proof.
  unfold join. induction parts as [|y parts IH]; simpl; [tauto|].
  intros [-> | Hin].
  - destruct parts; [apply contains_refl | apply contains_append_r, contains_refl].
  - destruct parts as [|z parts]; [destruct Hin|].
    do 2 apply contains_append_l. apply IH, Hin.
Qed.

(** The message names every value of the query and every date. *)
Lemma notification_message_contains params dates :
  (forall v, In v (values params) -> contains (notification_message params dates) v)
  /\ (forall d, In d dates -> contains (notification_message params dates) d).
Proof.
  unfold notification_message. split.
  - intros v Hv. apply contains_append_l, contains_append_r, join_contains, Hv.
  - intros d Hd. do 3 apply contains_append_l. apply join_contains, Hd.
Qed.

(** Every delivery attempt of a notification carries that message. *)
Lemma fan_out_sends_message w message channels c m :
  In (c, m) (pick send_of (tr (fan_out w message channels))) -> m = message.
Proof.
  induction channels as [|channel rest IH]; simpl; [tauto|].
  unfold deliver, bind, try_except, emit, answer, log; simpl.
  destruct (get_notification_client w channel) as [client|e]; simpl; [|tauto].
  destruct (fan_out w message rest) as [t' o']; simpl in *.
  destruct (send_notification client message); simpl;
    (intros [Heq | Hin]; [now inversion Heq | now apply IH]).
Qed.

Lemma notify_appointment_sends_message w params dates c m :
  In (c, m) (pick send_of (tr (notify_appointment w params dates))) ->
  m = notification_message params dates.
Proof.
  unfold notify_appointment, config, bind, emit, answer, raise, log; simpl.
  destruct (get_config_value w "notification" "channels" None) as [[channels|]|e];
    simpl; try tauto.
  destruct (Nat.eqb (String.length channels) 0); simpl; [tauto|].
  pose proof (fan_out_sends_message w (notification_message params dates)
                (split "," channels) c m) as Hf.
  destruct (fan_out w (notification_message params dates) (split "," channels))
    as [t o]; simpl in *.
  exact Hf.
Qed.

(** When the check returns dates, [notify_appointment] is called once, with
    the query and the dates, and [run] returns whether that call came back
    without an exception. *)
Lemma found_runs_notification w self args params d ds :
  In (EvCheck params (Ret (Some (d :: ds)))) (tr (run w self args)) ->
  pick notify_of (tr (run w self args)) = [(params, d :: ds)]
  /\ res (run w self args)
     = Ret (PyBool (match res (notify_appointment w params (d :: ds)) with
                    | Ret _ => true
                    | Raise _ => false
                    end)).
Proof.
  intros Hin.
  apply (In_pick check_of _ (params, Ret (Some (d :: ds)))) in Hin; [|reflexivity].
  revert Hin. paths w self args; norm; intros Hin; try contradiction.
  all: destruct Hin as [Hin|[]]; inversion Hin; subst; clear Hin.
  all: try match goal with H : truthy _ = None |- _ => discriminate H end.
  all: match goal with
       | Hn : notify_appointment ?w0 ?p ?dates = (?tn, _) |- _ =>
           let rest := fresh "rest" in
           let Htr := fresh "Htr" in
           let Hrest := fresh "Hrest" in
           destruct (notify_appointment_tr w0 p dates) as (rest & Htr & Hrest);
           rewrite Hn in Htr; unfold tr in Htr; simpl in Htr; subst tn; simpl;
           rewrite (pick_none_of fan_out_event notify_of rest
                      ltac:(kind_solver) Hrest);
           rewrite Hn; simpl
       end.
  all: split; reflexivity.
Qed.

(** X28. With dates found and a notification step that comes back, [run]
    returns [True]; the one call of the step has the query and the dates,
    and the message it builds names every value of the query and every
    date. *)
Lemma found_and_notified_returns_true w self args params d ds :
  In (EvCheck params (Ret (Some (d :: ds)))) (tr (run w self args)) ->
  res (notify_appointment w params (d :: ds)) = Ret tt ->
  res (run w self args) = Ret (PyBool true)
  /\ pick notify_of (tr (run w self args)) = [(params, d :: ds)]
  /\ (forall v, In v (values params) ->
                contains (notification_message params (d :: ds)) v)
  /\ (forall x, In x (d :: ds) ->
                contains (notification_message params (d :: ds)) x).
Proof.
  intros Hin Hnotified.
  destruct (found_runs_notification w self args params d ds Hin) as [Hcall Hres].
  rewrite Hnotified in Hres.
  destruct (notification_message_contains params (d :: ds)) as [Hvalues Hdates].
  repeat split; assumption.
Qed.

(** C3. The check finds two dates, but the configuration has no
    [notification.channels]: [notify_appointment] is called once and raises,
    the exception is taken for a failed check, and [run] returns [False]. *)
Theorem found_but_run_returns_false :
  let cfg := delete ("notification", "channels") Sample.cfg in
  let r := run (Sample.world_with cfg Sample.page) Sample.bot Sample.args in
  let query := [("visa_center", "Dublin"); ("visa_category", "Tourist");
                ("visa_sub_category", "Long Stay")] in
  pick check_of (tr r) = [(query, Ret (Some ["2024-05-01"; "2024-05-03"]))]
  /\ pick notify_of (tr r) = [(query, ["2024-05-01"; "2024-05-03"])]
  /\ In (EvLog (LogCheckFailed (KeyError "channels"))) (tr r)
  /\ res r = Ret (PyBool false).
Proof.
  split; [vm_compute; reflexivity|]. split; [vm_compute; reflexivity|].
  split; [find_event | vm_compute; reflexivity].
Qed.

(** The same when the reader answers [None] for the missing key: [len]
    raises [TypeError]. *)
Lemma found_but_channels_None_returns_false :
  let w := {| get_config_value := fun section key default =>
                if String.eqb section "notification" then Ret None
                else config_reader Sample.cfg section key default;
              stdin := ["Long Stay"];
              launch := fun _ _ _ => Ret {| new_page := Ret Sample.page |};
              get_notification_client := Sample.clients |} in
  let r := run w Sample.bot Sample.args in
  pick notify_of (tr r) = [(Sample.query, Sample.found)]
  /\ In (EvLog (LogCheckFailed
                  (TypeError "object of type 'NoneType' has no len()"))) (tr r)
  /\ res r = Ret (PyBool false).
Proof.
  split; [vm_compute; reflexivity|]. split; [find_event | vm_compute; reflexivity].
Qed.

(** *** Fan-out *)

Lemma fan_out_logs_failures w message channels c m e :
  In (EvSend c m (Raise e)) (tr (fan_out w message channels)) ->
  In (EvLog (LogSendFailed c)) (tr (fan_out w message channels)).
Proof.
  induction channels as [|channel rest IH]; simpl; [tauto|].
  unfold deliver, bind, try_except, emit, answer, log; simpl.
  destruct (get_notification_client w channel) as [client|e0]; simpl.
  2: { intros [H|[]]; discriminate H. }
  destruct (fan_out w message rest) as [t' o']; simpl in *.
  destruct (send_notification client message) as [[]|e1]; simpl.
  - intros [H | [H | H]]; try discriminate H. right. right. now apply IH.
  - intros [H | [H | [H | H]]]; try discriminate H.
    + inversion H; subst. right. right. now left.
    + right. right. right. now apply IH.
Qed.

Lemma fan_out_healed w message channels :
  res (fan_out w message channels) = res (fan_out (healed w) message channels)
  /\ pick send_of (tr (fan_out w message channels))
     = pick send_of (tr (fan_out (healed w) message channels)).
Proof.
  induction channels as [|channel rest [IHres IHtr]]; simpl; [split; reflexivity|].
  unfold deliver, bind, try_except, emit, answer, log; simpl.
  destruct (get_notification_client w channel) as [client|e0]; simpl.
  2: { split; reflexivity. }
  destruct (fan_out w message rest) as [t o],
           (fan_out (healed w) message rest) as [t' o']; simpl in *.
  destruct (send_notification client message) as [[]|e1]; simpl;
    (split; [exact IHres | now rewrite IHtr]).
Qed.

Lemma fan_out_attempts_all w message channels :
  (forall c, In c channels -> exists client, get_notification_client w c = Ret client) ->
  res (fan_out w message channels) = Ret tt
  /\ pick send_of (tr (fan_out w message channels))
     = map (fun c => (c, message)) channels.
Proof.
  induction channels as [|channel rest IH]; simpl; intros Hall; [split; reflexivity|].
  destruct (Hall channel (or_introl eq_refl)) as [client Hclient].
  destruct IH as [IHres IHtr]; [intros c Hc; apply Hall; now right|].
  unfold deliver, bind, try_except, emit, answer, log; simpl.
  rewrite Hclient; simpl.
  destruct (fan_out w message rest) as [t o]; simpl in *.
  destruct (send_notification client message) as [[]|e1]; simpl;
    (split; [exact IHres | now rewrite IHtr]).
Qed.

Lemma notify_appointment_healed w params dates :
  res (notify_appointment w params dates)
  = res (notify_appointment (healed w) params dates)
  /\ pick send_of (tr (notify_appointment w params dates))
     = pick send_of (tr (notify_appointment (healed w) params dates)).
Proof.
  unfold notify_appointment, config, bind, emit, answer, raise, log; simpl.
  destruct (get_config_value w "notification" "channels" None) as [[channels|]|e];
    simpl; try (split; reflexivity).
  destruct (Nat.eqb (String.length channels) 0); simpl; [split; reflexivity|].
  destruct (fan_out_healed w (notification_message params dates)
              (split "," channels)) as [Hres Htr].
  destruct (fan_out w (notification_message params dates) (split "," channels))
    as [t o],
    (fan_out (healed w) (notification_message params dates) (split "," channels))
    as [t' o']; simpl in *.
  split; assumption.
Qed.

Lemma session_healed w self browser_type vfs_url email_id password params :
  res (session (healed w) self browser_type vfs_url email_id password params)
  = res (session w self browser_type vfs_url email_id password params).
Proof.
  unfold session.
  change (launch (healed w)) with (launch w).
  destruct (launch w browser_type false ["--start-maximized"]) as [browser|e];
    unfold bind, try_except, call, emit, answer, ret, raise, log; simpl;
    [|reflexivity].
  destruct (new_page browser) as [page|e]; simpl; [|reflexivity].
  destruct (goto page vfs_url) as [[]|e]; simpl; [|reflexivity].
  destruct (wait_for_selector page "div[appcloudflarerecaptcha]" (Some 300000%Z))
    as [el|e]; simpl; [|reflexivity].
  destruct (pre_login_steps self page) as [t1 [[]|e]]; simpl; [|reflexivity].
  destruct (login self page email_id password) as [t2 [[]|e]]; simpl; [|reflexivity].
  destruct (check_for_appontment self page params) as [t3 [dates|e]]; simpl;
    [|reflexivity].
  destruct (truthy dates) as [ds|]; simpl; [|reflexivity].
  destruct (notify_appointment_healed w params ds) as [Hres _].
  destruct (notify_appointment w params ds) as [tn o],
           (notify_appointment (healed w) params ds) as [tn' o']; simpl in *.
  subst o'. destruct o as [[]|e]; reflexivity.
Qed.

Lemma run_healed w self args :
  res (run (healed w) self args) = res (run w self args).
Proof.
  unfold run, read_configuration, config, get_appointment_params.
  change (get_config_value (healed w)) with (get_config_value w).
  change (stdin (healed w)) with (stdin w).
  unfold bind, try_except, with_scope, emit, answer, ret, raise, log; simpl.
  destruct (get_config_value w "browser" "type" (Some "firefox")) as [bt|e]; simpl.
  2: { destruct (is_KeyError e); reflexivity. }
  destruct (get_config_value w "browser" "headless" (Some "True")) as [hm|e]; simpl.
  2: { destruct (is_KeyError e); reflexivity. }
  destruct (get_config_value w "vfs-url" _ None) as [url|e]; simpl.
  2: { destruct (is_KeyError e); reflexivity. }
  destruct (get_config_value w "vfs-credential" "email" None) as [em|e]; simpl;
    [|reflexivity].
  destruct (get_config_value w "vfs-credential" "password" None) as [pw|e]; simpl;
    [|reflexivity].
  destruct (collect_params args (appointment_param_keys self) [] (stdin w))
    as [tp [params|e]]; simpl; [|reflexivity].
  pose proof (session_healed w self bt url em pw params) as Hs.
  destruct (session w self bt url em pw params) as [t o],
           (session (healed w) self bt url em pw params) as [t' o']; simpl in *.
  exact Hs.
Qed.

(** C7. In a fan-out, a delivery that raises is logged; the channels to
    which delivery is attempted, and how the notification step ends, are
    those of the world in which every delivery succeeds; when every
    channel of the list has a client, delivery is attempted on each of
    them, in order, and the step returns; and what [run] returns does not
    depend on the outcome of any delivery. *)
Theorem delivery_failure_is_isolated w params dates :
  (forall c m e,
      In (EvSend c m (Raise e)) (tr (notify_appointment w params dates)) ->
      In (EvLog (LogSendFailed c)) (tr (notify_appointment w params dates)))
  /\ pick send_of (tr (notify_appointment w params dates))
     = pick send_of (tr (notify_appointment (healed w) params dates))
  /\ res (notify_appointment w params dates)
     = res (notify_appointment (healed w) params dates)
  /\ (forall channels,
         get_config_value w "notification" "channels" None = Ret (Some channels) ->
         channels <> "" ->
         (forall c, In c (split "," channels) ->
                    exists client, get_notification_client w c = Ret client) ->
         res (notify_appointment w params dates) = Ret tt
         /\ pick send_of (tr (notify_appointment w params dates))
            = map (fun c => (c, notification_message params dates))
                  (split "," channels))
  /\ (forall self args, res (run w self args) = res (run (healed w) self args)).
Proof.
  split; [|split; [|split; [|split]]].
  - intros c m e.
    unfold notify_appointment, config, bind, emit, answer, raise, log; simpl.
    destruct (get_config_value w "notification" "channels" None)
      as [[channels|]|e0]; simpl.
    2, 3: intros [H | [H | []]]; discriminate H.
    destruct (Nat.eqb (String.length channels) 0); simpl.
    { intros [H | [H | [H | []]]]; discriminate H. }
    pose proof (fan_out_logs_failures w (notification_message params dates)
                  (split "," channels) c m e) as Hf.
    destruct (fan_out w (notification_message params dates) (split "," channels))
      as [t o]; simpl in *.
    intros [H | [H | H]]; try discriminate H. right. right. now apply Hf.
  - apply notify_appointment_healed.
  - apply notify_appointment_healed.
  - intros channels Hcfg Hne Hall.
    unfold notify_appointment, config, bind, emit, answer, raise, log; simpl.
    rewrite Hcfg; simpl.
    destruct channels as [|a channels]; [congruence|]. simpl Nat.eqb. cbv iota.
    destruct (fan_out_attempts_all w (notification_message params dates)
                (split "," (String a channels)) Hall) as [Hres Htr].
    destruct (fan_out w (notification_message params dates)
                (split "," (String a channels))) as [t o]; simpl in *.
    split; assumption.
  - intros self args. symmetry. apply run_healed.
Qed.

Lemma delivery_failure_witness :
  let n := notify_appointment Sample.world Sample.query Sample.found in
  let message := notification_message Sample.query Sample.found in
  In (EvSend "email" message (Raise (Exn "ConnectionError" "unreachable"))) (tr n)
  /\ In (EvLog (LogSendFailed "email")) (tr n)
  /\ res n = Ret tt
  /\ pick send_of (tr n) = [("email", message); ("sms", message)]
  /\ res (run Sample.world Sample.bot Sample.args)
     = res (run (healed Sample.world) Sample.bot Sample.args).
Proof.
  destruct (delivery_failure_is_isolated Sample.world Sample.query Sample.found)
    as (Hlog & _ & _ & Hall & Hrun).
  assert (Hsend : In (EvSend "email"
                        (notification_message Sample.query Sample.found)
                        (Raise (Exn "ConnectionError" "unreachable")))
                     (tr (notify_appointment Sample.world Sample.query Sample.found)))
    by find_event.
  split; [exact Hsend|]. split; [exact (Hlog _ _ _ Hsend)|].
  destruct (Hall "email,sms") as [Hres Hsends].
  - reflexivity.
  - discriminate.
  - intros c [<- | [<- | []]]; eexists; reflexivity.
  - split; [exact Hres|]. split; [exact Hsends | apply Hrun].
Defined.

(** * The Netherlands adapter *)

Lemma try_except_res {E A} (m : W E A) (handler : exn -> W E A) :
  res (try_except m is_Exception handler)
  = match res m with
    | Ret a => Ret a
    | Raise e => res (handler e)
    end.
Proof.
  destruct m as [t [a|e]]; simpl; [reflexivity|]. now destruct (handler e).
Qed.

(** The adapter's check ends by returning: its [try] block catches
    whatever is raised inside it. *)
Lemma nl_check_never_raises extract page params :
  exists dates, res (Nl.check_for_appontment extract page params) = Ret dates.
Proof.
  unfold Nl.check_for_appontment. rewrite try_except_res.
  match goal with |- context [res ?m] => destruct (res m) as [dates|e] end.
  - now exists dates.
  - now exists None.
Qed.

(** X29. Whatever the adapter, a run that reaches the check ends by
    returning a boolean: no exception of the check or of the notification
    step leaves [run]. *)
Lemma run_returns_after_check w self args params o :
  In (EvCheck params o) (tr (run w self args)) ->
  exists found, res (run w self args) = Ret (PyBool found).
Proof.
  intros Hin.
  apply (In_pick check_of _ (params, o)) in Hin; [|reflexivity].
  revert Hin. paths w self args; norm; intros Hin; try contradiction.
  all: eexists; reflexivity.
Qed.

(** * More about [run] *)

(** How far a run gets: stopped by a [KeyError] in the first [try] block,
    stopped by an exception before the browser, or through one session
    with the settings, credentials and query it has read. *)
Lemma run_cases w self args :
  (exists pre e,
      is_KeyError e = true /\ Forall try_block_event pre
      /\ run w self args = (pre ++ [EvLog (LogMissingConfig e)], Ret PyNone))
  \/ (exists pre e,
         Forall setup_event pre /\ run w self args = (pre, Raise e))
  \/ (exists pre browser_type headless_mode vfs_url email_id password params,
         get_config_value w "browser" "type" (Some "firefox") = Ret browser_type
         /\ get_config_value w "browser" "headless" (Some "True") = Ret headless_mode
         /\ get_config_value w "vfs-url" (url_key self) None = Ret vfs_url
         /\ get_config_value w "vfs-credential" "email" None = Ret email_id
         /\ get_config_value w "vfs-credential" "password" None = Ret password
         /\ res (get_appointment_params self args (stdin w)) = Ret params
         /\ Forall setup_event pre
         /\ run w self args
            = (pre ++ EvPlaywrightStart
                 :: tr (session w self browser_type vfs_url email_id password params)
                 ++ [EvPlaywrightStop],
               res (session w self browser_type vfs_url email_id password params))).
Proof.
  unfold run, read_configuration, config, get_appointment_params, url_key.
  unfold bind, try_except, with_scope, emit, answer, ret, raise, log, tr, res; simpl.
  destruct (get_config_value w "browser" "type" (Some "firefox")) as [bt|e] eqn:Hbt;
    simpl.
  2: { destruct (is_KeyError e) eqn:Hkey; simpl.
       - left. exists [EvLog (LogStarting (upper (source_country_code self))
                                          (upper (destination_country_code self)));
                       EvConfig "browser" "type" (Some "firefox")], e.
         repeat split; try assumption. repeat constructor; discriminate.
       - right; left. eexists _, e. split; [|reflexivity]. repeat constructor. }
  destruct (get_config_value w "browser" "headless" (Some "True")) as [hm|e] eqn:Hhm;
    simpl.
  2: { destruct (is_KeyError e) eqn:Hkey; simpl.
       - left. exists [EvLog (LogStarting (upper (source_country_code self))
                                          (upper (destination_country_code self)));
                       EvConfig "browser" "type" (Some "firefox");
                       EvConfig "browser" "headless" (Some "True")], e.
         repeat split; try assumption. repeat constructor; discriminate.
       - right; left. eexists _, e. split; [|reflexivity]. repeat constructor. }
  destruct (get_config_value w "vfs-url" _ None) as [url|e] eqn:Hurl; simpl.
  2: { destruct (is_KeyError e) eqn:Hkey; simpl.
       - left. exists [EvLog (LogStarting (upper (source_country_code self))
                                          (upper (destination_country_code self)));
                       EvConfig "browser" "type" (Some "firefox");
                       EvConfig "browser" "headless" (Some "True");
                       EvConfig "vfs-url"
                         (source_country_code self +:+ "-"
                          +:+ destination_country_code self) None], e.
         repeat split; try assumption. repeat constructor; discriminate.
       - right; left. eexists _, e. split; [|reflexivity]. repeat constructor. }
  destruct (get_config_value w "vfs-credential" "email" None) as [em|e] eqn:Hem;
    simpl.
  2: { right; left. eexists _, e. split; [|reflexivity]. repeat constructor. }
  destruct (get_config_value w "vfs-credential" "password" None) as [pw|e] eqn:Hpw;
    simpl.
  2: { right; left. eexists _, e. split; [|reflexivity]. repeat constructor. }
  pose proof (collect_params_prompts args (appointment_param_keys self) []
                (stdin w)) as Hprompts.
  assert (Hsetup : forall t, Forall (fun e => is_prompt e = true) t ->
                             Forall setup_event t).
  { intros t Ht. eapply Forall_impl; [exact Ht|].
    intros [] H; simpl in *; try discriminate; exact I. }
  destruct (collect_params args (appointment_param_keys self) [] (stdin w))
    as [tp [params|e]]; simpl in *.
  2: { right; left. eexists _, e. split; [|reflexivity].
       repeat (constructor; [exact I|]). now apply Hsetup. }
  right; right.
  destruct (session w self bt url em pw params) as [t o] eqn:Hs.
  exists (EvLog (LogStarting (upper (source_country_code self))
                             (upper (destination_country_code self)))
          :: EvConfig "browser" "type" (Some "firefox")
          :: EvConfig "browser" "headless" (Some "True")
          :: EvConfig "vfs-url"
               (source_country_code self +:+ "-" +:+ destination_country_code self)
               None
          :: EvConfig "vfs-credential" "email" None
          :: EvConfig "vfs-credential" "password" None :: tp),
         bt, hm, url, em, pw, params.
  rewrite Hs. simpl.
  repeat split; try reflexivity.
  repeat (constructor; [exact I|]). now apply Hsetup.
Qed.

(** Splits a statement about [run] along [run_cases], and the last case
    along the paths of its session. *)
Ltac cases w self args :=
  let Hrun := fresh "Hrun" in
  destruct (run_cases w self args) as
    [(?pre & ?e & ?Hkey & ?Hpre & Hrun)
    |[(?pre & ?e & ?Hpre & Hrun)
     |(?pre & ?bt & ?hm & ?url & ?em & ?pw & ?params
       & ?Hbt & ?Hhm & ?Hurl & ?Hem & ?Hpw & ?Hparams & ?Hpre & Hrun)]];
  rewrite Hrun; clear Hrun; unfold tr, res; cbn [fst snd];
  [ | |
    match goal with
    | |- context [session w self ?b ?u ?m ?p ?q] =>
        let Hs := fresh "Hs" in
        pose proof (session_ends w self b u m p q) as Hs;
        destruct (session w self b u m p q) as [? ?]; cbn [fst snd];
        inversion Hs; subst; clear Hs
    end ].

(** X1. When [run] returns [None], a [KeyError] of the first [try] block
    has been logged as the last thing it did: Playwright was not started,
    no browser launched, the credentials not looked up and nothing
    prompted. *)
Theorem run_returns_None_only_on_KeyError w self args :
  res (run w self args) = Ret PyNone ->
  count is_start (tr (run w self args)) = 0
  /\ count is_launch (tr (run w self args)) = 0
  /\ count is_prompt (tr (run w self args)) = 0
  /\ (forall key default,
         ~ In (EvConfig "vfs-credential" key default) (tr (run w self args)))
  /\ exists e, is_KeyError e = true
               /\ last (tr (run w self args)) = Some (EvLog (LogMissingConfig e)).
Proof.
  cases w self args; intros Hres; try discriminate Hres.
  split; [norm; reflexivity|]. split; [norm; reflexivity|].
  split; [norm; reflexivity|]. split.
  - intros key default Hin. apply in_app_iff in Hin. destruct Hin as [Hin|[Hin|[]]].
    + rewrite Forall_forall in Hpre. apply list_elem_of_In, Hpre in Hin.
      simpl in Hin. congruence.
    + discriminate Hin.
  - exists e. split; [assumption | apply last_snoc].
Qed.

Lemma run_returns_None_witness :
  let r := run (Sample.world_with (delete ("vfs-url", "IE-NL") Sample.cfg) Sample.page)
               Sample.bot Sample.args in
  count is_start (tr r) = 0
  /\ count is_launch (tr r) = 0
  /\ count is_prompt (tr r) = 0
  /\ (forall key default, ~ In (EvConfig "vfs-credential" key default) (tr r))
  /\ exists e, is_KeyError e = true
               /\ last (tr r) = Some (EvLog (LogMissingConfig e)).
Proof.
  apply (run_returns_None_only_on_KeyError
           (Sample.world_with (delete ("vfs-url", "IE-NL") Sample.cfg) Sample.page)
           Sample.bot Sample.args).
  reflexivity.
Defined.

(** X2. What a run hands to the browser and to the adapter is what it read
    from the configuration: the browser type of a launch is the answer for
    [browser.type], the address of a navigation the answer for the URL key,
    and the credentials of a login those of [vfs-credential]. *)
Theorem run_uses_configured_settings w self args :
  (forall browser_type headless arguments,
      In (EvLaunch browser_type headless arguments) (tr (run w self args)) ->
      get_config_value w "browser" "type" (Some "firefox") = Ret browser_type)
  /\ (forall vfs_url,
         In (EvGoto vfs_url) (tr (run w self args)) ->
         get_config_value w "vfs-url" (url_key self) None = Ret vfs_url)
  /\ (forall email_id password o,
         In (EvLogin email_id password o) (tr (run w self args)) ->
         get_config_value w "vfs-credential" "email" None = Ret email_id
         /\ get_config_value w "vfs-credential" "password" None = Ret password).
Proof.
  split; [|split].
  - intros b h a Hin.
    apply (In_pick launch_of _ (b, h, a)) in Hin; [|reflexivity].
    revert Hin. cases w self args; norm; intros Hin; try contradiction.
    all: destruct Hin as [Hin|[]]; inversion Hin; subst; assumption.
  - intros u Hin.
    apply (In_pick goto_of _ u) in Hin; [|reflexivity].
    revert Hin. cases w self args; norm; intros Hin; try contradiction.
    all: destruct Hin as [Hin|[]]; inversion Hin; subst; assumption.
  - intros m p o Hin.
    apply (In_pick (fun e => match e with
                             | EvLogin a b _ => Some (a, b)
                             | _ => None
                             end) _ (m, p)) in Hin; [|reflexivity].
    revert Hin. cases w self args; norm; intros Hin; try contradiction.
    all: destruct Hin as [Hin|[]]; inversion Hin; subst; split; assumption.
Qed.

Lemma run_uses_configured_settings_witness :
  get_config_value Sample.world "browser" "type" (Some "firefox") = Ret (Some "chromium")
  /\ get_config_value Sample.world "vfs-url" (url_key Sample.bot) None
     = Ret (Some "https://visa.vfsglobal.com/irl/en/nld/login")
  /\ get_config_value Sample.world "vfs-credential" "email" None
     = Ret (Some "me@example.org")
  /\ get_config_value Sample.world "vfs-credential" "password" None
     = Ret (Some "secret").
Proof.
  destruct (run_uses_configured_settings Sample.world Sample.bot Sample.args)
    as (Hlaunch & Hgoto & Hlogin).
  split; [apply (Hlaunch _ false ["--start-maximized"]); find_event|].
  split; [apply Hgoto; find_event|].
  apply (Hlogin _ _ (Ret tt)). find_event.
Defined.

(** X3. The query handed to [check_for_appontment] is the one
    [get_appointment_params] returned for the run's arguments and input. *)
Theorem check_receives_collected_query w self args params o :
  In (EvCheck params o) (tr (run w self args)) ->
  res (get_appointment_params self args (stdin w)) = Ret params.
Proof.
  intros Hin.
  apply (In_pick check_of _ (params, o)) in Hin; [|reflexivity].
  revert Hin. cases w self args; norm; intros Hin; try contradiction.
  all: destruct Hin as [Hin|[]]; inversion Hin; subst; assumption.
Qed.

Lemma check_receives_collected_query_witness :
  res (get_appointment_params Sample.bot Sample.args (stdin Sample.world))
  = Ret Sample.query.
Proof.
  apply (check_receives_collected_query Sample.world Sample.bot Sample.args
           Sample.query (Ret (Some Sample.found))).
  find_event.
Defined.

(** X4. The adapter's methods are called in order and at most once: a
    login call comes after the challenge wait and [pre_login_steps] have
    returned, a check after [login] has returned as well. *)
Theorem adapter_steps_in_order w self args :
  (forall email_id password o,
      In (EvLogin email_id password o) (tr (run w self args)) ->
      pick wait_of (tr (run w self args)) = [(marker, 300000%Z, Ret tt)]
      /\ pick pre_login_of (tr (run w self args)) = [Ret tt]
      /\ pick login_of (tr (run w self args)) = [o])
  /\ (forall params o,
         In (EvCheck params o) (tr (run w self args)) ->
         pick pre_login_of (tr (run w self args)) = [Ret tt]
         /\ pick login_of (tr (run w self args)) = [Ret tt]
         /\ pick check_of (tr (run w self args)) = [(params, o)]).
Proof.
  split.
  - intros m p o Hin.
    apply (In_pick login_of _ o) in Hin; [|reflexivity].
    revert Hin. paths w self args; norm; intros Hin; try contradiction.
    all: destruct Hin as [Hin|[]]; inversion Hin; subst; repeat split; reflexivity.
  - intros q o Hin.
    apply (In_pick check_of _ (q, o)) in Hin; [|reflexivity].
    revert Hin. paths w self args; norm; intros Hin; try contradiction.
    all: destruct Hin as [Hin|[]]; inversion Hin; subst; repeat split; reflexivity.
Qed.

Lemma adapter_steps_in_order_witness :
  let r := run Sample.world Sample.bot Sample.args in
  pick wait_of (tr r) = [(marker, 300000%Z, Ret tt)]
  /\ pick pre_login_of (tr r) = [Ret tt]
  /\ pick login_of (tr r) = [Ret tt]
  /\ pick check_of (tr r) = [(Sample.query, Ret (Some Sample.found))].
Proof.
  destruct (adapter_steps_in_order Sample.world Sample.bot Sample.args)
    as [Hlogin Hcheck].
  destruct (Hlogin (Some "me@example.org") (Some "secret") (Ret tt))
    as (Hw & Hp & Hl); [find_event|].
  destruct (Hcheck Sample.query (Ret (Some Sample.found))) as (_ & _ & Hc);
    [find_event|].
  repeat split; assumption.
Defined.

(** X5. An exception of [pre_login_steps] leaves [run] as it is, not
    wrapped; [login] and [check_for_appontment] are not called and nothing
    is notified. *)
Theorem pre_login_failure_propagates w self args e :
  In (EvPreLogin (Raise e)) (tr (run w self args)) ->
  res (run w self args) = Raise e
  /\ pick login_of (tr (run w self args)) = []
  /\ pick check_of (tr (run w self args)) = []
  /\ count is_notify (tr (run w self args)) = 0.
Proof.
  intros Hin.
  apply (In_pick pre_login_of _ (Raise e)) in Hin; [|reflexivity].
  revert Hin. paths w self args; norm; intros Hin; try contradiction.
  all: destruct Hin as [Hin|[]]; inversion Hin; subst; repeat split; reflexivity.
Qed.

Lemma pre_login_failure_witness :
  let r := run (Sample.world_with Sample.cfg Sample.banner_page)
               Sample.bot Sample.args in
  res r = Raise (TimeoutError "Timeout 30000ms exceeded.")
  /\ pick login_of (tr r) = []
  /\ pick check_of (tr r) = []
  /\ count is_notify (tr r) = 0.
Proof.
  apply (pre_login_failure_propagates
           (Sample.world_with Sample.cfg Sample.banner_page) Sample.bot Sample.args).
  find_event.
Defined.

(** X6. Whenever [run] returns a boolean, the last two things it did were
    to close the browser and to stop Playwright, each exactly once. *)
Theorem returned_bool_means_closed w self args found :
  res (run w self args) = Ret (PyBool found) ->
  count is_close (tr (run w self args)) = 1
  /\ count is_stop (tr (run w self args)) = 1
  /\ exists t, rev (tr (run w self args))
               = EvPlaywrightStop :: EvBrowserClose :: t.
Proof.
  paths w self args; intros Hres; try discriminate Hres.
  1: { destruct H0 as [H0 | [e H0]]; rewrite H0 in Hres; discriminate Hres. }
  all: split; [norm; reflexivity|]; split; [norm; reflexivity|].
  all: unfold logged_in, pre_login_done, challenge_passed, arrival, opening.
  all: repeat (rewrite rev_app_distr; simpl).
  all: eexists; reflexivity.
Qed.

Lemma returned_bool_witness :
  let r := run Sample.world Sample.bot Sample.args in
  count is_close (tr r) = 1
  /\ count is_stop (tr r) = 1
  /\ exists t, rev (tr r) = EvPlaywrightStop :: EvBrowserClose :: t.
Proof.
  apply (returned_bool_means_closed Sample.world Sample.bot Sample.args true).
  vm_compute. reflexivity.
Defined.

(** X7. [run] returns [True] only when the check returned at least one
    date and [notify_appointment], called once with the query and those
    dates, came back without an exception. *)
Theorem true_means_found_and_notified w self args :
  res (run w self args) = Ret (PyBool true) ->
  exists params d ds,
    pick check_of (tr (run w self args)) = [(params, Ret (Some (d :: ds)))]
    /\ pick notify_of (tr (run w self args)) = [(params, d :: ds)]
    /\ res (notify_appointment w params (d :: ds)) = Ret tt.
Proof.
  paths w self args; intros Hres; try discriminate Hres.
  1: { destruct H0 as [H0 | [e H0]]; rewrite H0 in Hres; discriminate Hres. }
  match goal with
  | Hn : notify_appointment w ?p ?dates = (?tn, Ret tt), Hne : ?dates <> [] |- _ =>
      destruct dates as [|d ds]; [congruence|];
      exists p, d, ds;
      destruct (notify_appointment_tr w p (d :: ds)) as (rest & Htr & Hrest);
      rewrite Hn in Htr; unfold tr in Htr; simpl in Htr; subst tn;
      split; [norm; reflexivity|]; split; [norm; reflexivity | now rewrite Hn]
  end.
Qed.

Lemma true_means_found_witness :
  exists params d ds,
    pick check_of (tr (run Sample.world Sample.bot Sample.args))
    = [(params, Ret (Some (d :: ds)))]
    /\ pick notify_of (tr (run Sample.world Sample.bot Sample.args))
       = [(params, d :: ds)]
    /\ res (notify_appointment Sample.world params (d :: ds)) = Ret tt.
Proof.
  apply (true_means_found_and_notified Sample.world Sample.bot Sample.args).
  vm_compute. reflexivity.
Defined.

(** X8. Every prompt of a run comes before Playwright is started: the
    trace splits into a first part without a start or a launch and a
    second part without a prompt. *)
Theorem prompts_precede_browser w self args :
  exists before after,
    tr (run w self args) = before ++ after
    /\ count is_start before = 0
    /\ count is_launch before = 0
    /\ count is_prompt after = 0.
Proof.
  pose proof (run_ends w self args) as Hrun.
  destruct (run w self args) as [t o]. unfold tr; simpl.
  inversion Hrun as [? ? Hpre ? | ? ? ? ? ? ? ? ? Hpre Hs]; subst; clear Hrun.
  - exists t, []. rewrite app_nil_r. repeat split; norm; reflexivity.
  - eexists pre, _. split; [reflexivity|].
    split; [norm; reflexivity|]. split; [norm; reflexivity|].
    inversion Hs; subst; clear Hs; norm; reflexivity.
Qed.

(** X9. A run launches at most one browser and closes none it has not
    launched. *)
Theorem at_most_one_browser w self args :
  count is_launch (tr (run w self args)) <= 1
  /\ count is_close (tr (run w self args))
     <= count is_launch (tr (run w self args)).
Proof. paths w self args; norm; split; lia. Qed.

(** * More about [get_appointment_params] *)

Lemma dict_set_keys (d : pydict) k' v k :
  In k (map fst (dict_set d k' v)) <-> In k (map fst d) \/ k = k'.
Proof.
  induction d as [|[a b] d IH]; simpl.
  - split.
    + intros [Heq | []]. right. now symmetry.
    + intros [[] | Heq]. left. now symmetry.
  - destruct (String.eqb_spec a k') as [Heq | Hne]; simpl.
    + subst a. split.
      * intros [Heq | H]; [right; now symmetry | left; now right].
      * intros [[Heq | H] | Heq]; [left; exact Heq | now right | left; now symmetry].
    + rewrite IH. tauto.
Qed.

Lemma dict_set_NoDup (d : pydict) k v :
  NoDup (map fst d) -> NoDup (map fst (dict_set d k v)).
Proof.
  induction d as [|[a b] d IH]; simpl; intros Hd.
  - constructor; [apply not_elem_of_nil | constructor].
  - apply NoDup_cons in Hd. destruct Hd as [Ha Hd].
    destruct (String.eqb_spec a k) as [->|Hne]; simpl.
    + apply NoDup_cons. split; assumption.
    + apply NoDup_cons. split; [|now apply IH].
      intros Hin. apply list_elem_of_In, dict_set_keys in Hin.
      destruct Hin as [Hin | ->]; [|congruence].
      apply Ha, list_elem_of_In, Hin.
Qed.

Lemma dict_get_set_eq (d : pydict) k v : dict_get (dict_set d k v) k = Some v.
Proof.
  unfold dict_get. induction d as [|[a b] d IH]; simpl.
  - now rewrite String.eqb_refl.
  - destruct (String.eqb_spec a k) as [->|Hne]; simpl.
    + now rewrite String.eqb_refl.
    + destruct (String.eqb_spec a k); [congruence | exact IH].
Qed.

Lemma dict_get_set_ne (d : pydict) k' v k :
  k <> k' -> dict_get (dict_set d k' v) k = dict_get d k.
Proof.
  unfold dict_get. intros Hne. induction d as [|[a b] d IH]; simpl.
  - destruct (String.eqb_spec k' k); [congruence | reflexivity].
  - destruct (String.eqb_spec a k') as [->|Ha]; simpl.
    + destruct (String.eqb_spec k' k); [congruence | reflexivity].
    + destruct (String.eqb_spec a k); [reflexivity | exact IH].
Qed.

Lemma dict_get_of_key (d : pydict) k :
  In k (map fst d) -> is_Some (dict_get d k).
Proof.
  unfold dict_get. induction d as [|[a b] d IH]; simpl; [tauto|].
  intros [->|Hin].
  - rewrite String.eqb_refl. simpl. eauto.
  - destruct (String.eqb_spec a k); simpl; [eauto | now apply IH].
Qed.

(** A value that was provided is what [param_value] yields, without a
    prompt and without reading input. *)
Lemma param_value_provided args key lines v :
  provided_value args key = Some v ->
  param_value args key lines = (ret v, lines).
Proof.
  unfold provided_value, param_value.
  destruct args as [|[| |d]]; simpl; try discriminate.
  destruct (d !! key) as [[u|]|]; try discriminate.
  now intros [= ->].
Qed.

Lemma collect_params_result args keys acc lines t q :
  collect_params args keys acc lines = (t, Ret q) ->
  (forall k, In k (map fst q) <-> In k (map fst acc) \/ In k keys)
  /\ (NoDup (map fst acc) -> NoDup (map fst q))
  /\ (forall k v, provided_value args k = Some v ->
                  In k keys \/ dict_get acc k = Some v ->
                  dict_get q k = Some v).
Proof.
  revert acc lines t.
  induction keys as [|key keys IH]; intros acc lines t; simpl.
  - intros [= <- <-]. repeat split; try tauto; intros k v _ [[]|H]; exact H.
  - destruct (param_value args key lines) as [[tv [u|e]] lines'] eqn:Hvalue;
      unfold bind; simpl; [|discriminate].
    destruct (collect_params args keys (dict_set acc key u) lines') as [t' o] eqn:Hrest.
    intros [= <- ->].
    destruct (IH _ _ _ Hrest) as (Hkeys & Hnodup & Hvalues).
    split; [|split].
    + intros k. rewrite Hkeys, dict_set_keys. simpl. intuition congruence.
    + intros Hacc. apply Hnodup, dict_set_NoDup, Hacc.
    + intros k v Hprovided Hk. apply Hvalues; [exact Hprovided|].
      destruct (String.eqb_spec k key) as [->|Hne].
      * right. rewrite (param_value_provided _ _ lines _ Hprovided) in Hvalue.
        injection Hvalue as _ <- _. apply dict_get_set_eq.
      * destruct Hk as [[Heq|Hin]|Hacc]; [congruence | now left |].
        right. now rewrite dict_get_set_ne.
Qed.

(** X10. When [get_appointment_params] returns a query, its keys are the
    declared keys, each once, so every declared key has a value; and a key
    for which the caller provided a value has that value. *)
Theorem collected_query_has_declared_keys self args lines q :
  res (get_appointment_params self args lines) = Ret q ->
  (forall k, In k (map fst q) <-> In k (appointment_param_keys self))
  /\ NoDup (map fst q)
  /\ (forall k, In k (appointment_param_keys self) -> is_Some (dict_get q k))
  /\ (forall k v, In k (appointment_param_keys self) ->
                  provided_value args k = Some v -> dict_get q k = Some v).
Proof.
  unfold get_appointment_params. intros Hres.
  destruct (collect_params args (appointment_param_keys self) [] lines)
    as [t o] eqn:Hcollect.
  unfold res in Hres; simpl in Hres; subst o.
  destruct (collect_params_result _ _ _ _ _ _ Hcollect) as (Hkeys & Hnodup & Hvalues).
  assert (Hiff : forall k, In k (map fst q) <-> In k (appointment_param_keys self)).
  { intros k. rewrite Hkeys. simpl. tauto. }
  split; [exact Hiff|]. split; [apply Hnodup; constructor|].
  split.
  - intros k Hk. apply dict_get_of_key, Hiff, Hk.
  - intros k v Hk Hprovided. apply (Hvalues k v Hprovided). now left.
Qed.

Lemma collected_query_witness :
  (forall k, In k (map fst Sample.query) <-> In k (appointment_param_keys Sample.bot))
  /\ NoDup (map fst Sample.query)
  /\ (forall k, In k (appointment_param_keys Sample.bot) ->
                is_Some (dict_get Sample.query k))
  /\ (forall k v, In k (appointment_param_keys Sample.bot) ->
                  provided_value Sample.args k = Some v ->
                  dict_get Sample.query k = Some v).
Proof.
  apply (collected_query_has_declared_keys Sample.bot Sample.args ["Long Stay"]).
  reflexivity.
Defined.

Lemma collect_params_prompt args keys acc lines text :
  In (EvPrompt text) (tr (collect_params args keys acc lines)) ->
  exists key, In key keys /\ text = prompt_for key
              /\ provided_value args key = None.
Proof.
  revert acc lines.
  induction keys as [|key keys IH]; intros acc lines; simpl; [tauto|].
  assert (Hone : In (EvPrompt text) (tr (param_value args key lines).1) ->
                 text = prompt_for key /\ provided_value args key = None).
  { unfold param_value, provided_value, input, prompt_for.
    destruct args as [|[| |d]]; simpl; try tauto.
    - destruct lines; simpl; intros [[= <-]|[]]; split; reflexivity.
    - destruct (d !! key) as [[u|]|]; simpl; try tauto.
      destruct lines; simpl; intros [[= <-]|[]]; split; reflexivity. }
  destruct (param_value args key lines) as [[tv [u|e]] lines']; unfold bind; simpl in *.
  - specialize (IH (dict_set acc key u) lines').
    destruct (collect_params args keys (dict_set acc key u) lines') as [t' o].
    simpl in *. rewrite in_app_iff. intros [Hin|Hin].
    + exists key. split; [now left | now apply Hone].
    + destruct (IH Hin) as (k & Hk & Hrest). exists k. split; [now right | exact Hrest].
  - intros Hin. exists key. split; [now left | now apply Hone].
Qed.

(** X11. Every prompt [get_appointment_params] shows is the prompt of a
    declared key for which the caller provided no value: it reads
    ["Enter the <key with spaces for underscores>: "], and no key with a
    provided value is ever asked for. *)
Theorem prompts_only_for_unprovided_keys self args lines text :
  In (EvPrompt text) (tr (get_appointment_params self args lines)) ->
  exists key, In key (appointment_param_keys self)
              /\ text = prompt_for key
              /\ provided_value args key = None.
Proof. apply collect_params_prompt. Qed.

Lemma prompts_only_for_unprovided_witness :
  exists key, In key (appointment_param_keys Sample.bot)
              /\ "Enter the visa sub category: " = prompt_for key
              /\ provided_value Sample.args key = None.
Proof.
  apply (prompts_only_for_unprovided_keys Sample.bot Sample.args ["Long Stay"]).
  find_event.
Defined.

(** X12. With distinct declared keys that are all in the [dict] of
    provided arguments, [get_appointment_params] does what the collector is
    specified to do: same prompts, same query, [EOFError] where the
    specified collector has no input left. *)
Theorem get_appointment_params_as_specified self d lines :
  NoDup (appointment_param_keys self) ->
  (forall k, In k (appointment_param_keys self) -> is_Some (d !! k)) ->
  get_appointment_params self (Namespace (AttrDict d)) lines
  = (fst (collect_spec d (appointment_param_keys self) lines),
     match snd (collect_spec d (appointment_param_keys self) lines) with
     | Some q => Ret q
     | None => Raise EOFError
     end).
Proof.
  intros Hnodup Hdom. unfold get_appointment_params.
  rewrite (collect_params_refines d _ [] lines Hnodup); [reflexivity | | exact Hdom].
  intros k _ [].
Qed.

Lemma get_appointment_params_as_specified_witness :
  get_appointment_params Sample.bot Sample.args ["Long Stay"]
  = ([EvPrompt "Enter the visa sub category: "], Ret Sample.query).
Proof.
  apply (get_appointment_params_as_specified Sample.bot Sample.given ["Long Stay"]).
  - repeat constructor; vm_compute; intros H; inversion H; subst;
      repeat match goal with
             | H : _ ∈ _ |- _ => inversion H; subst; clear H
             end.
  - intros k [<- | [<- | [<- | []]]]; vm_compute; eauto.
Defined.

Lemma collect_spec_empty keys lines :
  length keys <= length lines ->
  collect_spec (∅ : gmap string (option string)) keys lines
  = (map (fun k => EvPrompt (prompt_for k)) keys, Some (combine keys lines)).
Proof.
  revert lines. induction keys as [|key keys IH]; intros lines; simpl; [reflexivity|].
  rewrite lookup_empty. destruct lines as [|l lines]; simpl; [lia|].
  intros Hlen. rewrite IH by lia. reflexivity.
Qed.

(** X13. When [appointment_params] is [None] and input has a line for each
    of the distinct declared keys, every key is prompted for, in the
    declared order, and the query pairs each key with the line typed for
    it. *)
Theorem get_appointment_params_prompts_for_all self lines :
  NoDup (appointment_param_keys self) ->
  length (appointment_param_keys self) <= length lines ->
  get_appointment_params self (Namespace AttrNone) lines
  = (map (fun k => EvPrompt (prompt_for k)) (appointment_param_keys self),
     Ret (combine (appointment_param_keys self) lines)).
Proof.
  intros Hnodup Hlen. unfold get_appointment_params.
  rewrite (collect_params_prompts_all _ [] lines Hnodup); [|intros k _ []].
  now rewrite collect_spec_empty.
Qed.

Lemma get_appointment_params_prompts_for_all_witness :
  get_appointment_params Sample.two_key_bot (Namespace AttrNone) ["Dublin"; "Tourist"]
  = ([EvPrompt "Enter the visa center: "; EvPrompt "Enter the visa category: "],
     Ret [("visa_center", "Dublin"); ("visa_category", "Tourist")]).
Proof.
  apply (get_appointment_params_prompts_for_all Sample.two_key_bot ["Dublin"; "Tourist"]).
  - repeat constructor; vm_compute; intros H; inversion H; subst;
      repeat match goal with
             | H : _ ∈ _ |- _ => inversion H; subst; clear H
             end.
  - simpl. lia.
Defined.

Lemma collect_params_eof keys acc lines :
  length lines < length keys ->
  collect_params (Namespace AttrNone) keys acc lines
  = (map (fun k => EvPrompt (prompt_for k)) (firstn (S (length lines)) keys),
     Raise EOFError).
Proof.
  revert acc lines. induction keys as [|key keys IH]; intros acc lines; simpl; [lia|].
  unfold param_value, input, prompt_for. simpl.
  destruct lines as [|l lines]; simpl; intros Hlen.
  - reflexivity.
  - unfold bind; simpl. rewrite IH by lia. reflexivity.
Qed.

(** X14. When [appointment_params] is [None] and input ends before every
    declared key has its line, [get_appointment_params] raises [EOFError]
    at the first prompt that finds no line; it has prompted for one key
    more than there were lines. *)
Theorem get_appointment_params_eof self lines :
  length lines < length (appointment_param_keys self) ->
  get_appointment_params self (Namespace AttrNone) lines
  = (map (fun k => EvPrompt (prompt_for k))
         (firstn (S (length lines)) (appointment_param_keys self)),
     Raise EOFError).
Proof. apply collect_params_eof. Qed.

Lemma get_appointment_params_eof_witness :
  get_appointment_params Sample.bot (Namespace AttrNone) ["Dublin"]
  = ([EvPrompt "Enter the visa center: "; EvPrompt "Enter the visa category: "],
     Raise EOFError).
Proof.
  apply (get_appointment_params_eof Sample.bot ["Dublin"]). simpl. lia.
Defined.

(** * More about [notify_appointment] *)

(** X15. With an empty [notification.channels], [notify_appointment] logs
    a warning and returns: no client is resolved and nothing is sent; a run
    whose check found dates still returns [True]. *)
Theorem no_channels_no_delivery w params dates :
  get_config_value w "notification" "channels" None = Ret (Some "") ->
  notify_appointment w params dates
  = ([EvNotify params dates; EvConfig "notification" "channels" None;
      EvLog LogNoChannels], Ret tt)
  /\ (forall self args q d ds,
         In (EvCheck q (Ret (Some (d :: ds)))) (tr (run w self args)) ->
         res (run w self args) = Ret (PyBool true)
         /\ pick client_of (tr (run w self args)) = []
         /\ pick send_of (tr (run w self args)) = []).
Proof.
  intros Hcfg.
  assert (Hnotify : forall q ds,
             notify_appointment w q ds
             = ([EvNotify q ds; EvConfig "notification" "channels" None;
                 EvLog LogNoChannels], Ret tt)).
  { intros q ds. unfold notify_appointment, config, bind, emit, answer, log; simpl.
    rewrite Hcfg. reflexivity. }
  split; [apply Hnotify|].
  intros self args q d ds Hin.
  apply (In_pick check_of _ (q, Ret (Some (d :: ds)))) in Hin; [|reflexivity].
  revert Hin. paths w self args; norm; intros Hin; try contradiction.
  all: destruct Hin as [Hin|[]]; inversion Hin; subst; clear Hin.
  all: try match goal with H : truthy _ = None |- _ => discriminate H end.
  all: match goal with
       | Hn : notify_appointment _ _ _ = _ |- _ =>
           rewrite Hnotify in Hn; inversion Hn; subst
       end.
  all: norm; repeat split; reflexivity.
Qed.

Lemma no_channels_witness :
  let w := Sample.world_with (<[("notification", "channels") := ""]> Sample.cfg)
                             Sample.page in
  res (run w Sample.bot Sample.args) = Ret (PyBool true)
  /\ pick client_of (tr (run w Sample.bot Sample.args)) = []
  /\ pick send_of (tr (run w Sample.bot Sample.args)) = [].
Proof.
  destruct (no_channels_no_delivery
              (Sample.world_with (<[("notification", "channels") := ""]> Sample.cfg)
                                 Sample.page)
              Sample.query Sample.found) as [_ Hrun]; [reflexivity|].
  apply (Hrun Sample.bot Sample.args Sample.query "2024-05-01" ["2024-05-03"]).
  find_event.
Defined.

Lemma fan_out_characterised w message channels :
  pick send_of (tr (fan_out w message channels))
  = map (fun c => (c, message)) (resolved_prefix w channels)
  /\ pick client_of (tr (fan_out w message channels))
     = firstn (S (length (resolved_prefix w channels))) channels
  /\ res (fan_out w message channels)
     = match first_unresolved w channels with
       | None => Ret tt
       | Some e => Raise e
       end.
Proof.
  induction channels as [|channel rest (IHsend & IHclient & IHres)]; simpl;
    [repeat split; reflexivity|].
  unfold deliver, bind, try_except, emit, answer, log; simpl.
  destruct (get_notification_client w channel) as [client|e]; simpl.
  2: { repeat split; reflexivity. }
  destruct (fan_out w message rest) as [t o]; simpl in *.
  destruct (send_notification client message) as [[]|e1]; simpl;
    (split; [now rewrite IHsend | split; [now rewrite IHclient | exact IHres]]).
Qed.

(** X16. Delivery is attempted, in the order of the list and with the one
    message, on exactly the channels that come before the first channel
    without a client; clients are resolved for those and for that first
    one, for none after it. *)
Theorem deliveries_stop_at_first_unresolved w params dates channels :
  get_config_value w "notification" "channels" None = Ret (Some channels) ->
  channels <> "" ->
  pick send_of (tr (notify_appointment w params dates))
  = map (fun c => (c, notification_message params dates))
        (resolved_prefix w (split "," channels))
  /\ pick client_of (tr (notify_appointment w params dates))
     = firstn (S (length (resolved_prefix w (split "," channels))))
              (split "," channels).
Proof.
  intros Hcfg Hne.
  unfold notify_appointment, config, bind, emit, answer, raise, log; simpl.
  rewrite Hcfg; simpl.
  destruct channels as [|a channels]; [congruence|]. simpl Nat.eqb. cbv iota.
  destruct (fan_out_characterised w (notification_message params dates)
              (split "," (String a channels))) as (Hsend & Hclient & _).
  destruct (fan_out w (notification_message params dates)
              (split "," (String a channels))) as [t o]; simpl in *.
  split; assumption.
Qed.

Lemma deliveries_stop_witness :
  pick send_of (tr (notify_appointment Sample.pager_world Sample.query Sample.found))
  = [("sms", notification_message Sample.query Sample.found)]
  /\ pick client_of
       (tr (notify_appointment Sample.pager_world Sample.query Sample.found))
     = ["sms"; "pager"].
Proof.
  apply (deliveries_stop_at_first_unresolved Sample.pager_world
           Sample.query Sample.found "sms,pager,email").
  - reflexivity.
  - discriminate.
Defined.

(** X17. An exception of [get_notification_client] is not caught by
    [notify_appointment]: the step raises what the first channel without a
    client made the factory raise, and returns when every channel has one. *)
Theorem unresolved_channel_raises w params dates channels :
  get_config_value w "notification" "channels" None = Ret (Some channels) ->
  channels <> "" ->
  res (notify_appointment w params dates)
  = match first_unresolved w (split "," channels) with
    | None => Ret tt
    | Some e => Raise e
    end.
Proof.
  intros Hcfg Hne.
  unfold notify_appointment, config, bind, emit, answer, raise, log; simpl.
  rewrite Hcfg; simpl.
  destruct channels as [|a channels]; [congruence|]. simpl Nat.eqb. cbv iota.
  destruct (fan_out_characterised w (notification_message params dates)
              (split "," (String a channels))) as (_ & _ & Hres).
  destruct (fan_out w (notification_message params dates)
              (split "," (String a channels))) as [t o]; simpl in *.
  exact Hres.
Qed.

Lemma unresolved_channel_witness :
  res (notify_appointment Sample.pager_world Sample.query Sample.found)
  = Raise (Exn "UnsupportedChannel" "pager").
Proof.
  apply (unresolved_channel_raises Sample.pager_world
           Sample.query Sample.found "sms,pager,email").
  - reflexivity.
  - discriminate.
Defined.

Lemma split_nonempty sep s : split sep s <> [].
Proof.
  destruct s as [|c s]; simpl; [discriminate|].
  destruct (Ascii.eqb c sep); [discriminate|].
  destruct (split sep s); discriminate.
Qed.

(** [",".join(s.split(","))] is [s]. *)
Lemma join_split sep s : join (String sep "") (split sep s) = s.
Proof.
  unfold join. induction s as [|c s IH]; [reflexivity|].
  simpl split. destruct (Ascii.eqb_spec c sep) as [->|Hne].
  - pose proof (split_nonempty sep s) as Hs.
    destruct (split sep s) as [|p ps]; [congruence|].
    change (String.concat (String sep "") ("" :: p :: ps))
      with (String sep (String.concat (String sep "") (p :: ps))).
    now rewrite IH.
  - pose proof (split_nonempty sep s) as Hs.
    destruct (split sep s) as [|p ps]; [congruence|].
    destruct ps as [|p' ps].
    + simpl in *. now rewrite IH.
    + change (String.concat (String sep "") (String c p :: p' :: ps))
        with (String c (String.concat (String sep "") (p :: p' :: ps))).
      now rewrite IH.
Qed.

(** X18. The channel list is taken as it is written: when every piece
    between the commas has a client, the channels on which delivery is
    attempted, joined by commas again, are the configured string; empty
    pieces and spaces are channels like any other. *)
Theorem attempted_channels_are_the_configured_ones w params dates channels :
  get_config_value w "notification" "channels" None = Ret (Some channels) ->
  channels <> "" ->
  (forall c, In c (split "," channels) ->
             exists client, get_notification_client w c = Ret client) ->
  join "," (map fst (pick send_of (tr (notify_appointment w params dates))))
  = channels.
Proof.
  intros Hcfg Hne Hall.
  assert (Hlen : Nat.eqb (String.length channels) 0 = false).
  { destruct channels; [congruence | reflexivity]. }
  unfold notify_appointment, config, bind, emit, answer, raise, log; simpl.
  rewrite Hcfg; simpl. rewrite Hlen.
  destruct (fan_out_attempts_all w (notification_message params dates)
              (split "," channels) Hall) as [_ Hsend].
  destruct (fan_out w (notification_message params dates) (split "," channels))
    as [t o]; simpl in *.
  rewrite Hsend, map_map. simpl. rewrite map_id. apply join_split.
Qed.

Lemma attempted_channels_witness :
  let w := Sample.world_with
             (<[("notification", "channels") := "email,, sms,"]> Sample.cfg)
             Sample.page in
  join "," (map fst (pick send_of
                       (tr (notify_appointment w Sample.query Sample.found))))
  = "email,, sms,".
Proof.
  apply (attempted_channels_are_the_configured_ones
           (Sample.world_with
              (<[("notification", "channels") := "email,, sms,"]> Sample.cfg)
              Sample.page)
           Sample.query Sample.found "email,, sms,").
  - reflexivity.
  - discriminate.
  - intros c _. unfold Sample.world_with, Sample.clients; simpl.
    destruct (String.eqb c "email"); eexists; reflexivity.
Defined.

(** * More about the Netherlands adapter *)

Ltac nl_unfold :=
  unfold Nl.check_for_appontment, Nl.login, Nl.pre_login_steps, Nl.choose, Nl.item,
    Nl.op, Nl.say, bind, try_except, emit, answer, ret, raise, is_Exception, tr, res;
  simpl.



(** X20. When every step on the page succeeds and the date element is
    there, [check_for_appontment] has chosen the three query values under
    their labels, centre, category, sub-category in this order, and returns
    what [extract_date_from_string] makes of the element's text, [None] if
    that raises. *)
Theorem nl_check_returns_extracted extract page params c k s el text :
  dict_get params "visa_center" = Some c ->
  dict_get params "visa_category" = Some k ->
  dict_get params "visa_sub_category" = Some s ->
  click page "button" "Start New Booking" = Ret tt ->
  select_option page "Visa Application Centre" c = Ret tt ->
  select_option page "Visa Category" k = Ret tt ->
  select_option page "Visa Sub Category" s = Ret tt ->
  click page "button" "Continue" = Ret tt ->
  wait_for_selector page ".date-available" None = Ret (Some el) ->
  inner_text el = Ret text ->
  res (Nl.check_for_appontment extract page params)
  = match extract text with
    | Ret dates => Ret dates
    | Raise _ => Ret None
    end
  /\ selections (tr (Nl.check_for_appontment extract page params))
     = [("Visa Application Centre", c); ("Visa Category", k);
        ("Visa Sub Category", s)].
Proof.
  intros Hc Hk Hs Hstart H1 H2 H3 Hcontinue Hwait Htext. nl_unfold.
  rewrite Hstart; simpl. rewrite Hc; simpl. rewrite H1; simpl.
  rewrite Hk; simpl. rewrite H2; simpl. rewrite Hs; simpl. rewrite H3; simpl.
  rewrite Hcontinue; simpl. rewrite Hwait; simpl. rewrite Htext; simpl.
  destruct (extract text) as [dates|e]; simpl; split; reflexivity.
Qed.

Lemma nl_check_returns_extracted_witness :
  res (Nl.check_for_appontment Sample.dates_of Sample.page Sample.query)
  = Ret (Some Sample.found)
  /\ selections (tr (Nl.check_for_appontment Sample.dates_of Sample.page Sample.query))
     = [("Visa Application Centre", "Dublin"); ("Visa Category", "Tourist");
        ("Visa Sub Category", "Long Stay")].
Proof.
  apply (nl_check_returns_extracted Sample.dates_of Sample.page Sample.query
           "Dublin" "Tourist" "Long Stay" Sample.date_text
           "2024-05-01, 2024-05-03"); reflexivity.
Defined.

(** X21. When the email field or the password field does not appear,
    [login] raises the [Exception] that reports missing form elements; no
    field has been filled and no button clicked. *)
Theorem nl_login_form_missing page email_id password :
  (exists e, wait_for_selector page "#email" (Some 30000%Z) = Raise e)
  \/ (exists e, wait_for_selector page "#password" (Some 30000%Z) = Raise e) ->
  res (Nl.login page email_id password)
  = Raise (Exn "Exception"
      "Login form elements not found. The page might be stuck in a loading state.")
  /\ existsb is_fill (tr (Nl.login page email_id password)) = false
  /\ existsb is_click (tr (Nl.login page email_id password)) = false.
Proof.
  intros Hmissing. nl_unfold.
  destruct (wait_for_selector page "#email" (Some 30000%Z)) as [el|e0]; simpl.
  2: { repeat split; reflexivity. }
  destruct (wait_for_selector page "#password" (Some 30000%Z)) as [el'|e1]; simpl.
  2: { repeat split; reflexivity. }
  destruct Hmissing as [[e H]|[e H]]; discriminate H.
Qed.

Lemma nl_login_form_missing_witness :
  res (Nl.login Sample.formless_page (Some "me@example.org") (Some "secret"))
  = Raise (Exn "Exception"
      "Login form elements not found. The page might be stuck in a loading state.")
  /\ existsb is_fill
       (tr (Nl.login Sample.formless_page (Some "me@example.org") (Some "secret")))
     = false
  /\ existsb is_click
       (tr (Nl.login Sample.formless_page (Some "me@example.org") (Some "secret")))
     = false.
Proof.
  apply (nl_login_form_missing Sample.formless_page).
  left. eexists. reflexivity.
Defined.

(** X22. [login] returns only after the whole sequence: both fields
    awaited, the email typed into [#email] and the password into
    [#password], Sign In clicked, and the Start New Booking button seen. *)
Theorem nl_login_success_sequence page email_id password :
  res (Nl.login page email_id password) = Ret tt ->
  tr (Nl.login page email_id password)
  = [PgWaitForSelector "#email" (Some 30000%Z);
     PgLog INFO "Email input found";
     PgWaitForSelector "#password" (Some 30000%Z);
     PgLog INFO "Password input found";
     PgWaitForTimeout 1000;
     PgFill "#email" email_id;
     PgWaitForTimeout 500;
     PgFill "#password" password;
     PgWaitForTimeout 1000;
     PgClick "button" "Sign In";
     PgWaitForSelector "role=button >> text=Start New Booking" (Some 30000%Z)].
Proof.
  nl_unfold.
  destruct (wait_for_selector page "#email" (Some 30000%Z)) as [el|e0]; simpl;
    [|discriminate].
  destruct (wait_for_selector page "#password" (Some 30000%Z)) as [el'|e1]; simpl;
    [|discriminate].
  destruct (fill page "#email" email_id) as [[]|e2]; simpl; [|discriminate].
  destruct (fill page "#password" password) as [[]|e3]; simpl; [|discriminate].
  destruct (click page "button" "Sign In") as [[]|e4]; simpl; [|discriminate].
  destruct (wait_for_selector page "role=button >> text=Start New Booking"
              (Some 30000%Z)) as [el''|e5]; simpl; [|discriminate].
  reflexivity.
Qed.

Lemma nl_login_success_witness :
  existsb is_fill (tr (Nl.login Sample.page (Some "me@example.org") (Some "secret")))
  = true
  /\ tr (Nl.login Sample.page (Some "me@example.org") (Some "secret"))
     = [PgWaitForSelector "#email" (Some 30000%Z);
        PgLog INFO "Email input found";
        PgWaitForSelector "#password" (Some 30000%Z);
        PgLog INFO "Password input found";
        PgWaitForTimeout 1000;
        PgFill "#email" (Some "me@example.org");
        PgWaitForTimeout 500;
        PgFill "#password" (Some "secret");
        PgWaitForTimeout 1000;
        PgClick "button" "Sign In";
        PgWaitForSelector "role=button >> text=Start New Booking" (Some 30000%Z)].
Proof.
  split; [reflexivity|].
  apply (nl_login_success_sequence Sample.page). reflexivity.
Defined.

(** X23. Whatever happens on the page, [login] types the email only into
    [#email] and the password only into [#password]. *)
Theorem nl_login_fills_own_fields page email_id password selector text :
  In (PgFill selector text) (tr (Nl.login page email_id password)) ->
  (selector = "#email" /\ text = email_id)
  \/ (selector = "#password" /\ text = password).
Proof.
  nl_unfold.
  destruct (wait_for_selector page "#email" (Some 30000%Z)) as [el|e0]; simpl.
  2: { intros [H|[H|[]]]; discriminate H. }
  destruct (wait_for_selector page "#password" (Some 30000%Z)) as [el'|e1]; simpl.
  2: { intros [H|[H|[H|[H|[]]]]]; discriminate H. }
  destruct (fill page "#email" email_id) as [[]|e2]; simpl.
  2: { intros [H|[H|[H|[H|[H|[H|[]]]]]]]; try discriminate H.
       inversion H; subst. left; split; reflexivity. }
  destruct (fill page "#password" password) as [[]|e3]; simpl.
  2: { intros [H|[H|[H|[H|[H|[H|[H|[H|[]]]]]]]]]; try discriminate H;
         inversion H; subst; [left | right]; split; reflexivity. }
  destruct (click page "button" "Sign In") as [[]|e4]; simpl.
  2: { intros [H|[H|[H|[H|[H|[H|[H|[H|[H|[H|[]]]]]]]]]]]; try discriminate H;
         inversion H; subst; [left | right]; split; reflexivity. }
  destruct (wait_for_selector page "role=button >> text=Start New Booking"
              (Some 30000%Z)) as [el''|e5]; simpl.
  - intros [H|[H|[H|[H|[H|[H|[H|[H|[H|[H|[H|[]]]]]]]]]]]]; try discriminate H;
      inversion H; subst; [left | right]; split; reflexivity.
  - intros [H|[H|[H|[H|[H|[H|[H|[H|[H|[H|[H|[H|[]]]]]]]]]]]]]; try discriminate H;
      inversion H; subst; [left | right]; split; reflexivity.
Qed.

Lemma nl_login_fills_witness :
  ("#password" = "#email" /\ Some "secret" = Some "me@example.org")
  \/ ("#password" = "#password" /\ Some "secret" = Some "secret").
Proof.
  apply (nl_login_fills_own_fields Sample.page (Some "me@example.org")
           (Some "secret") "#password" (Some "secret")).
  vm_compute. repeat first [left; reflexivity | right].
Defined.

(** X24. The keys the Netherlands bot declares are the parameters its
    check reads: a query that [get_appointment_params] returned for it has
    a value for each of the three. *)
Theorem nl_query_has_every_parameter extract source args lines q :
  res (get_appointment_params (Nl.VfsBotNl extract source) args lines) = Ret q ->
  is_Some (dict_get q "visa_center")
  /\ is_Some (dict_get q "visa_category")
  /\ is_Some (dict_get q "visa_sub_category").
Proof.
  unfold get_appointment_params. intros Hres.
  destruct (collect_params args
              (appointment_param_keys (Nl.VfsBotNl extract source)) [] lines)
    as [t o] eqn:Hcollect.
  unfold res in Hres; simpl in Hres; subst o.
  destruct (collect_params_result _ _ _ _ _ _ Hcollect) as (Hkeys & _ & _).
  repeat split; apply dict_get_of_key, Hkeys; right; simpl; tauto.
Qed.

Lemma nl_query_witness :
  is_Some (dict_get Sample.query "visa_center")
  /\ is_Some (dict_get Sample.query "visa_category")
  /\ is_Some (dict_get Sample.query "visa_sub_category").
Proof.
  apply (nl_query_has_every_parameter Sample.dates_of "IE" Sample.args ["Long Stay"]).
  reflexivity.
Defined.

(** * More witnesses *)

Lemma launch_is_never_headless_witness :
  false = false /\ ["--start-maximized"] = ["--start-maximized"].
Proof.
  apply (launch_is_never_headless Sample.world Sample.bot Sample.args
           (Some "chromium") false ["--start-maximized"]).
  find_event.
Defined.

Lemma found_and_notified_witness :
  let r := run Sample.world Sample.bot Sample.args in
  res r = Ret (PyBool true)
  /\ pick notify_of (tr r) = [(Sample.query, Sample.found)]
  /\ (forall v, In v (values Sample.query) ->
                contains (notification_message Sample.query Sample.found) v)
  /\ (forall x, In x Sample.found ->
                contains (notification_message Sample.query Sample.found) x).
Proof.
  apply (found_and_notified_returns_true Sample.world Sample.bot Sample.args
           Sample.query "2024-05-01" ["2024-05-03"]).
  - find_event.
  - reflexivity.
Defined.

Lemma run_returns_after_check_witness :
  exists found,
    res (run Sample.pager_world Sample.bot Sample.args) = Ret (PyBool found).
Proof.
  apply (run_returns_after_check Sample.pager_world Sample.bot Sample.args
           Sample.query (Ret (Some Sample.found))).
  find_event.
Defined.

(** X27. When the configuration has been read and the collection of the
    parameters raises, be it [KeyError], [AttributeError] or [EOFError],
    that exception leaves [run]: Playwright is not started and no browser
    is launched. *)
Theorem collection_failure_aborts_before_browser
    w self args browser_type headless_mode vfs_url email_id password e :
  get_config_value w "browser" "type" (Some "firefox") = Ret browser_type ->
  get_config_value w "browser" "headless" (Some "True") = Ret headless_mode ->
  get_config_value w "vfs-url" (url_key self) None = Ret vfs_url ->
  get_config_value w "vfs-credential" "email" None = Ret email_id ->
  get_config_value w "vfs-credential" "password" None = Ret password ->
  res (get_appointment_params self args (stdin w)) = Raise e ->
  res (run w self args) = Raise e
  /\ count is_start (tr (run w self args)) = 0
  /\ count is_launch (tr (run w self args)) = 0.
Proof.
  intros Hbt Hhm Hurl Hem Hpw Hparams. unfold url_key in Hurl.
  pose proof (collect_params_prompts args (appointment_param_keys self) []
                (stdin w)) as Hprompts.
  unfold run, read_configuration, config, get_appointment_params in *.
  rewrite Hbt, Hhm, Hurl, Hem, Hpw.
  destruct (collect_params args (appointment_param_keys self) [] (stdin w))
    as [t o].
  unfold res in Hparams; simpl in Hparams; subst o.
  unfold bind, try_except, with_scope, emit, answer, ret, raise, log, tr, res in *;
    simpl in *.
  repeat split.
  - apply (count_none_of (fun e => is_prompt e = true)); [|exact Hprompts].
    intros [] H; simpl in *; try discriminate; reflexivity.
  - apply (count_none_of (fun e => is_prompt e = true)); [|exact Hprompts].
    intros [] H; simpl in *; try discriminate; reflexivity.
Qed.

Lemma collection_failure_witness :
  let r := run (Sample.world_with Sample.cfg Sample.page) Sample.bot
               (Namespace (AttrDict {[ "visa_center" := Some "Dublin" ]})) in
  res r = Raise (KeyError "visa_category")
  /\ count is_start (tr r) = 0
  /\ count is_launch (tr r) = 0.
Proof.
  apply (collection_failure_aborts_before_browser
           (Sample.world_with Sample.cfg Sample.page) Sample.bot
           (Namespace (AttrDict {[ "visa_center" := Some "Dublin" ]}))
           (Some "chromium") (Some "True")
           (Some "https://visa.vfsglobal.com/irl/en/nld/login")
           (Some "me@example.org") (Some "secret")); reflexivity.
Defined.

(** X30. [check_for_appontment] never raises, and what it returns is [None]
    unless everything went well: it returns a list of dates only when the
    three parameters were in the query, every click and selection on the
    page succeeded, the date element was found and its text read, and
    [extract_date_from_string] returned that list for the text.  A failure
    of any step, a missing parameter included, gives [None]. *)
Theorem nl_check_returns_None_on_any_failure extract page params :
  (exists dates, res (Nl.check_for_appontment extract page params) = Ret dates)
  /\ (forall ds,
         res (Nl.check_for_appontment extract page params) = Ret (Some ds) ->
         exists c k s el text,
           dict_get params "visa_center" = Some c
           /\ dict_get params "visa_category" = Some k
           /\ dict_get params "visa_sub_category" = Some s
           /\ click page "button" "Start New Booking" = Ret tt
           /\ select_option page "Visa Application Centre" c = Ret tt
           /\ select_option page "Visa Category" k = Ret tt
           /\ select_option page "Visa Sub Category" s = Ret tt
           /\ click page "button" "Continue" = Ret tt
           /\ wait_for_selector page ".date-available" None = Ret (Some el)
           /\ inner_text el = Ret text
           /\ extract text = Ret (Some ds)).
Proof.
  nl_unfold.
  destruct (click page "button" "Start New Booking") as [[]|e0] eqn:Hstart; simpl.
  2: { split; [eexists; reflexivity | intros ds H; discriminate H]. }
  destruct (dict_get params "visa_center") as [c|] eqn:Hc; simpl.
  2: { split; [eexists; reflexivity | intros ds H; discriminate H]. }
  destruct (select_option page "Visa Application Centre" c) as [[]|e1] eqn:H1;
    simpl.
  2: { split; [eexists; reflexivity | intros ds H; discriminate H]. }
  destruct (dict_get params "visa_category") as [k|] eqn:Hk; simpl.
  2: { split; [eexists; reflexivity | intros ds H; discriminate H]. }
  destruct (select_option page "Visa Category" k) as [[]|e2] eqn:H2; simpl.
  2: { split; [eexists; reflexivity | intros ds H; discriminate H]. }
  destruct (dict_get params "visa_sub_category") as [s|] eqn:Hs; simpl.
  2: { split; [eexists; reflexivity | intros ds H; discriminate H]. }
  destruct (select_option page "Visa Sub Category" s) as [[]|e3] eqn:H3; simpl.
  2: { split; [eexists; reflexivity | intros ds H; discriminate H]. }
  destruct (click page "button" "Continue") as [[]|e4] eqn:Hcontinue; simpl.
  2: { split; [eexists; reflexivity | intros ds H; discriminate H]. }
  destruct (wait_for_selector page ".date-available" None) as [[el|]|e5] eqn:Hwait;
    simpl.
  2, 3: split; [eexists; reflexivity | intros ds H; discriminate H].
  destruct (inner_text el) as [text|e6] eqn:Htext; simpl.
  2: { split; [eexists; reflexivity | intros ds H; discriminate H]. }
  destruct (extract text) as [dates|e7] eqn:Hextract; simpl.
  2: { split; [eexists; reflexivity | intros ds H; discriminate H]. }
  split; [eexists; reflexivity|].
  intros ds [= ->]. exists c, k, s, el, text. repeat split; assumption.
Qed.

Lemma nl_check_returns_None_witness :
  (exists dates,
      res (Nl.check_for_appontment Sample.dates_of Sample.page Sample.query)
      = Ret dates)
  /\ exists c k s el text,
       dict_get Sample.query "visa_center" = Some c
       /\ dict_get Sample.query "visa_category" = Some k
       /\ dict_get Sample.query "visa_sub_category" = Some s
       /\ click Sample.page "button" "Start New Booking" = Ret tt
       /\ select_option Sample.page "Visa Application Centre" c = Ret tt
       /\ select_option Sample.page "Visa Category" k = Ret tt
       /\ select_option Sample.page "Visa Sub Category" s = Ret tt
       /\ click Sample.page "button" "Continue" = Ret tt
       /\ wait_for_selector Sample.page ".date-available" None = Ret (Some el)
       /\ inner_text el = Ret text
       /\ Sample.dates_of text = Ret (Some Sample.found).
Proof.
  destruct (nl_check_returns_None_on_any_failure
              Sample.dates_of Sample.page Sample.query) as [Hret Hdates].
  split; [exact Hret|]. apply Hdates. reflexivity.
Defined.
